(** * Anvaya linear algebra: validation gating and error taxonomy

    A shallow embedding of [anvaya/linear_algebra.py] and
    [anvaya/core/exceptions.py].  The module is a thin layer over NumPy:
    every operation coerces its argument, optionally validates its shape,
    optionally consults the condition number, and then delegates to one
    NumPy routine.  The embedding keeps that structure:

    - IEEE-754 binary64 values are [spec_float] values of the Standard
      Library at precision 53, with Python's comparison semantics;
    - NumPy itself is a [Backend]: a record with one field per NumPy
      routine the module calls, each returning either a NumPy-side
      exception or a value;
    - Python's control effects (raising, [try]/[except], [warnings.warn])
      and the sequence of backend calls are threaded through a small
      state-and-error monad [M].

    The module is taken as the package imports it: the exception classes
    are those of [core/exceptions.py], not the bare fallback classes the
    module defines when that import fails.  What NumPy computes is left
    open: every statement about an operation holds for all backends, and
    a concrete backend is only used to run examples.

    Further sections embed the parameter validation and Bayes' rule of
    [anvaya/probability.py], [gradient_descent] of
    [anvaya/optimization.py] and the base conversions of
    [anvaya/number_theory.py]. *)

From Stdlib Require Import ZArith List String Ascii Bool Lia DecimalString.
From Stdlib Require Import Floats.SpecFloat.
Import ListNotations.

Local Open Scope string_scope.
Local Open Scope list_scope.

(** ** Binary64 arithmetic *)

Module Float64.

Definition float64 : Type := spec_float.

Definition prec : Z := 53.
Definition emax : Z := 1024.

Definition add : float64 -> float64 -> float64 := SFadd prec emax.
Definition sub : float64 -> float64 -> float64 := SFsub prec emax.
Definition mul : float64 -> float64 -> float64 := SFmul prec emax.
Definition div : float64 -> float64 -> float64 := SFdiv prec emax.
Definition sqrt : float64 -> float64 := SFsqrt prec emax.
Definition abs : float64 -> float64 := SFabs.
Definition opp : float64 -> float64 := SFopp.

Definition eqb : float64 -> float64 -> bool := SFeqb.
Definition ltb : float64 -> float64 -> bool := SFltb.
Definition leb : float64 -> float64 -> bool := SFleb.
(** Python's [x > y] on floats: false as soon as one side is NaN. *)
Definition gtb (x y : float64) : bool := SFltb y x.

(** The float nearest to the integer [z] (round to nearest even). *)
Definition of_Z (z : Z) : float64 := binary_normalize prec emax z 0 false.
(** [m * 2^e], rounded. *)
Definition of_scaled (m e : Z) : float64 := binary_normalize prec emax m e false.

Definition zero : float64 := S754_zero false.
Definition one : float64 := of_Z 1.
Definition inf : float64 := S754_infinity false.
Definition nan : float64 := S754_nan.

Definition is_nan (x : float64) : bool :=
  match x with S754_nan => true | _ => false end.

(** [np.finfo(np.float64).eps]: the gap between 1.0 and the next float. *)
Definition eps : float64 := of_scaled 1 (-52).

End Float64.

Import Float64.

(** ** Shapes and their rendering in messages *)

Definition shape_t : Type := list nat.

Definition str_nat (n : nat) : string := NilEmpty.string_of_uint (Nat.to_uint n).

Fixpoint join_comma (l : list string) : string :=
  match l with
  | [] => ""
  | [s] => s
  | s :: rest => s ++ ", " ++ join_comma rest
  end.

(** Python's [repr] of a tuple of ints, as an f-string renders [A.shape]. *)
Definition repr_shape (s : shape_t) : string :=
  match s with
  | [] => "()"
  | [n] => "(" ++ str_nat n ++ ",)"
  | _ => "(" ++ join_comma (map str_nat s) ++ ")"
  end.

(** ** Exceptions ([anvaya/core/exceptions.py]) *)

(** Exceptions raised by NumPy and the Python runtime.  The backend can
    raise these and nothing else: it knows no Anvaya class. *)
Inductive np_error : Type :=
| LinAlgError (message : string)
| ValueError (message : string)
| TypeError (message : string)
| IndexError (message : string)
| OverflowError (message : string).

(** The library's own classes, all subclasses of [AnvayaError].  Each
    constructor carries the final message (what [super().__init__] gets)
    and the attributes [__init__] stores. *)
Inductive anvaya_error : Type :=
| SingularMatrixError (message : string) (condition_number : option float64)
| ConvergenceError (message : string) (iterations : option Z)
                   (last_value : option float64)
| DimensionMismatchError (message : string) (expected got : option shape_t)
| InvalidInputError (message : string) (parameter value constraint : option string).

Inductive exn : Type :=
| Anvaya (e : anvaya_error)
| Foreign (e : np_error).

Definition class_name (e : exn) : string :=
  match e with
  | Anvaya (SingularMatrixError _ _) => "SingularMatrixError"
  | Anvaya (ConvergenceError _ _ _) => "ConvergenceError"
  | Anvaya (DimensionMismatchError _ _ _) => "DimensionMismatchError"
  | Anvaya (InvalidInputError _ _ _ _) => "InvalidInputError"
  | Foreign (LinAlgError _) => "LinAlgError"
  | Foreign (ValueError _) => "ValueError"
  | Foreign (TypeError _) => "TypeError"
  | Foreign (IndexError _) => "IndexError"
  | Foreign (OverflowError _) => "OverflowError"
  end.

Section Constructors.

(** Python's [format(x, '.2e')]; part of the runtime, not of the library. *)
Variable format_2e : float64 -> string.

(** [SingularMatrixError.__init__(message, condition_number=None)]. *)
Definition new_SingularMatrixError
    (message : string) (condition_number : option float64) : anvaya_error :=
  match condition_number with
  | Some c =>
      SingularMatrixError
        (message ++ " (condition number: " ++ format_2e c ++ ")") (Some c)
  | None => SingularMatrixError message None
  end.

(** [DimensionMismatchError.__init__(message, expected=None, got=None)]. *)
Definition new_DimensionMismatchError
    (message : string) (expected got : option shape_t) : anvaya_error :=
  match expected, got with
  | Some e, Some g =>
      DimensionMismatchError
        (message ++ ": expected " ++ repr_shape e ++ ", got " ++ repr_shape g)
        expected got
  | _, _ => DimensionMismatchError message expected got
  end.

End Constructors.

(** The two diagnostic attributes the claims talk about. *)
Definition condition_number_of (e : exn) : option float64 :=
  match e with
  | Anvaya (SingularMatrixError _ c) => c
  | _ => None
  end.

Definition expected_of (e : exn) : option shape_t :=
  match e with
  | Anvaya (DimensionMismatchError _ x _) => x
  | _ => None
  end.

Definition got_of (e : exn) : option shape_t :=
  match e with
  | Anvaya (DimensionMismatchError _ _ g) => g
  | _ => None
  end.

(** ** Arrays *)

Inductive dtype : Type := float64_t | int64_t | complex128_t | bool_t.

Inductive scalar : Type :=
| F (x : float64)
| I (z : Z)
| C (re im : float64)
| B (b : bool).

(** An [ndarray]: element type, shape, and the elements in row-major order. *)
Record ndarray : Type := mk_ndarray {
  dtype_of : dtype;
  shape : shape_t;
  data : list scalar
}.

Definition ndim (a : ndarray) : nat := List.length (shape a).

Definition dtype_eqb (d1 d2 : dtype) : bool :=
  match d1, d2 with
  | float64_t, float64_t | int64_t, int64_t
  | complex128_t, complex128_t | bool_t, bool_t => true
  | _, _ => false
  end.

(** Casting one element to float64, as [ndarray.astype(np.float64)] does
    (a complex element keeps its real part). *)
Definition to_float (s : scalar) : float64 :=
  match s with
  | F x => x
  | I z => of_Z z
  | C re _ => re
  | B b => if b then one else zero
  end.

(** [np.asarray(A, dtype=np.float64)] on an array: the array itself when
    it already holds float64, a cast copy otherwise. *)
Definition asarray_float64 (a : ndarray) : ndarray :=
  if dtype_eqb (dtype_of a) float64_t then a
  else mk_ndarray float64_t (shape a) (map (fun s => F (to_float s)) (data a)).

(** The guard [A.ndim != 2 or A.shape[0] != A.shape[1]], negated. *)
Definition is_square (a : ndarray) : bool :=
  match shape a with
  | [r; c] => Nat.eqb r c
  | _ => false
  end.

(** Nested Python data handed to [matrix]. *)
#[warnings="-register-all"]
Inductive pyobj : Type :=
| PyInt (z : Z)
| PyFloat (x : float64)
| PyBool (b : bool)
| PyNone
| PyObject (type_name : string)
| PyList (items : list pyobj).

(** The [ord] argument of [norm]. *)
Inductive norm_order : Type :=
| OrdNone
| OrdInt (p : Z)
| OrdInf
| OrdNegInf
| OrdFro
| OrdNuc.

(** ** The NumPy backend

    One field per NumPy routine called by [linear_algebra.py].  A routine
    either raises a NumPy-side exception or returns. *)

Definition np_result (T : Type) : Type := (np_error + T)%type.

Record Backend : Type := mk_Backend {
  np_array : pyobj -> dtype -> np_result ndarray;
  np_dot : ndarray -> ndarray -> np_result ndarray;
  np_linalg_det : ndarray -> np_result float64;
  np_linalg_cond : ndarray -> np_result float64;
  np_linalg_inv : ndarray -> np_result ndarray;
  np_linalg_eig : ndarray -> np_result (ndarray * ndarray);
  np_linalg_solve : ndarray -> ndarray -> np_result ndarray;
  np_linalg_norm : ndarray -> norm_order -> np_result float64;
  np_linalg_cholesky : ndarray -> np_result ndarray;
  format_2e : float64 -> string
}.

(** A record of one backend call, kept in program order. *)
Inductive kcall : Type :=
| call_array (obj : pyobj) (dt : dtype)
| call_dot (a b : ndarray)
| call_det (a : ndarray)
| call_cond (a : ndarray)
| call_inv (a : ndarray)
| call_eig (a : ndarray)
| call_solve (a b : ndarray)
| call_norm (v : ndarray) (ord : norm_order)
| call_cholesky (a : ndarray).

Definition is_inversion (c : kcall) : bool :=
  match c with
  | call_inv _ => true
  | _ => false
  end.

Definition is_cond (c : kcall) : bool :=
  match c with
  | call_cond _ => true
  | _ => false
  end.

(** ** Effects: backend calls, warnings, exceptions *)

Inductive warning : Type :=
| RuntimeWarning (message : string).

Record world : Type := mk_world {
  calls : list kcall;
  warnings : list warning
}.

Definition fresh : world := mk_world [] [].

Inductive outcome (R : Type) : Type :=
| Returned (r : R)
| Raised (e : exn).

Arguments Returned {R} r.
Arguments Raised {R} e.

Definition M (R : Type) : Type := world -> outcome R * world.

Definition ret {R} (r : R) : M R := fun w => (Returned r, w).

Definition raise {R} (e : exn) : M R := fun w => (Raised e, w).

Definition bind {R S} (c : M R) (k : R -> M S) : M S :=
  fun w =>
    match c w with
    | (Returned r, w') => k r w'
    | (Raised e, w') => (Raised e, w')
    end.

Notation "x <- c ;; k" := (bind c (fun x => k))
  (at level 61, c at next level, right associativity).
Notation "c ;;; k" := (bind c (fun _ => k))
  (at level 61, right associativity).

(** Running a backend routine: the call is logged, and a NumPy exception
    propagates as it is. *)
Definition backend {R} (c : kcall) (r : np_result R) : M R :=
  fun w =>
    let w' := mk_world (calls w ++ [c]) (warnings w) in
    match r with
    | inr v => (Returned v, w')
    | inl e => (Raised (Foreign e), w')
    end.

(** [warnings.warn(message, RuntimeWarning)]: the warning is handed to
    the warnings machinery, the side channel beside the return value;
    how the process filters or displays it is outside the model. *)
Definition warn (m : warning) : M unit :=
  fun w => (Returned tt, mk_world (calls w) (warnings w ++ [m])).

(** [try: body  except np.linalg.LinAlgError as e: handler(str(e))]. *)
Definition try_except_LinAlgError {R} (body : M R) (handler : string -> M R) : M R :=
  fun w =>
    match body w with
    | (Raised (Foreign (LinAlgError msg)), w') => handler msg w'
    | other => other
    end.

Definition result_of {R} (c : M R) : outcome R := fst (c fresh).
Definition calls_of {R} (c : M R) : list kcall := calls (snd (c fresh)).
Definition warnings_of {R} (c : M R) : list warning := warnings (snd (c fresh)).

(** ** The operations of [linear_algebra.py]

    Array-like arguments are taken as arrays (what [np.asarray] makes of
    them); [matrix] alone receives raw nested data. *)

(** [np.transpose(A)]: the axes reversed.  An element at multi-index
    [i] of the result is the element at the reversed multi-index of [A]. *)
Fixpoint unravel (s : shape_t) (j : nat) : list nat :=
  match s with
  | [] => []
  | d :: rest =>
      let stride := fold_right Nat.mul 1%nat rest in
      (j / stride)%nat :: unravel rest (j mod stride)%nat
  end.

Fixpoint ravel (s : shape_t) (idx : list nat) : nat :=
  match s, idx with
  | d :: rest, i :: idx' => (i * fold_right Nat.mul 1 rest + ravel rest idx')%nat
  | _, _ => 0%nat
  end.

Definition transpose (A : ndarray) : ndarray :=
  let s := shape A in
  let s' := rev s in
  mk_ndarray (dtype_of A) s'
    (map (fun j => nth (ravel s (rev (unravel s' j))) (data A) (F zero))
         (seq 0 (List.length (data A)))).

(** [A.shape[0]] and [A.shape[-1]]; indexing the empty tuple raises. *)
Definition shape_first (s : shape_t) : outcome nat :=
  match s with
  | d :: _ => Returned d
  | [] => Raised (Foreign (IndexError "tuple index out of range"))
  end.

Definition shape_last (s : shape_t) : outcome nat :=
  match rev s with
  | d :: _ => Returned d
  | [] => Raised (Foreign (IndexError "tuple index out of range"))
  end.

Definition lift {R} (o : outcome R) : M R := fun w => (o, w).

Record EigenResult : Type := mk_EigenResult {
  values : ndarray;
  vectors : ndarray
}.

(** The literal [1e10]. *)
Definition advisory_threshold : float64 := of_Z 10000000000.

(** [1 / np.finfo(A.dtype).eps], with [A.dtype] float64 after coercion. *)
Definition hard_threshold : float64 := div one eps.

Section Operations.

Variable K : Backend.

Definition matrix (data : pyobj) : M ndarray :=
  backend (call_array data float64_t) (np_array K data float64_t).

Definition multiply (A B : ndarray) : M ndarray :=
  a_cols <- lift (shape_last (shape A)) ;;
  b_rows <- lift (shape_first (shape B)) ;;
  if negb (Nat.eqb a_cols b_rows) then
    raise (Anvaya (new_DimensionMismatchError
                     ("Cannot multiply matrices with shapes "
                        ++ repr_shape (shape A) ++ " and " ++ repr_shape (shape B))
                     None None))
  else backend (call_dot A B) (np_dot K A B).

Definition determinant (A : ndarray) (check_numerical : bool) : M float64 :=
  let A := asarray_float64 A in
  if negb (is_square A) then
    raise (Anvaya (new_DimensionMismatchError
                     ("Determinant requires square matrix, got shape "
                        ++ repr_shape (shape A))
                     None None))
  else
    det <- backend (call_det A) (np_linalg_det K A) ;;
    (if check_numerical && (10 <? hd 0 (shape A))%nat then
       cond <- backend (call_cond A) (np_linalg_cond K A) ;;
       if gtb cond advisory_threshold then
         warn (RuntimeWarning
                 ("Matrix has high condition number (" ++ format_2e K cond
                    ++ "). Determinant may be numerically unreliable."))
       else ret tt
     else ret tt) ;;;
    ret det.

Definition inverse (A : ndarray) (check_singular : bool) : M ndarray :=
  let A := asarray_float64 A in
  if negb (is_square A) then
    raise (Anvaya (new_DimensionMismatchError
                     ("Inverse requires square matrix, got shape "
                        ++ repr_shape (shape A))
                     None None))
  else
    (if check_singular then
       cond <- backend (call_cond A) (np_linalg_cond K A) ;;
       if gtb cond hard_threshold then
         raise (Anvaya (new_SingularMatrixError (format_2e K)
                          "Matrix is singular or nearly singular" (Some cond)))
       else ret tt
     else ret tt) ;;;
    try_except_LinAlgError
      (backend (call_inv A) (np_linalg_inv K A))
      (fun e => raise (Anvaya (new_SingularMatrixError (format_2e K) e None))).

Definition eigenvalues (A : ndarray) : M EigenResult :=
  let A := asarray_float64 A in
  r <- backend (call_eig A) (np_linalg_eig K A) ;;
  ret (mk_EigenResult (fst r) (snd r)).

Definition solve_linear_system (A b : ndarray) : M ndarray :=
  let A := asarray_float64 A in
  let b := asarray_float64 b in
  try_except_LinAlgError
    (backend (call_solve A b) (np_linalg_solve K A b))
    (fun e => raise (Anvaya (new_SingularMatrixError (format_2e K)
                               ("Cannot solve system: " ++ e) None))).

(** [norm(v, ord=2)]: [None] stands for a call that leaves [ord] out. *)
Definition norm (v : ndarray) (ord : option norm_order) : M float64 :=
  let ord := match ord with Some o => o | None => OrdInt 2 end in
  backend (call_norm v ord) (np_linalg_norm K v ord).

Definition is_positive_definite (A : ndarray) : M bool :=
  let A := asarray_float64 A in
  try_except_LinAlgError
    (backend (call_cholesky A) (np_linalg_cholesky K A) ;;; ret true)
    (fun _ => ret false).

End Operations.

(** ** The C library's [log] and [exp]

    [np.linalg.det] forms the determinant as [sign * exp(sum of log|u_ii|)]
    over the diagonal of the LU factor, so the reference backend below
    needs the two functions.  They are computed here in fixed-point
    arithmetic on integers, 256 bits after the point, and rounded to the
    nearest float: the correctly rounded value, which is what the C
    library returns except in rare near-tie cases. *)

Module Libm.

Local Open Scope Z_scope.

Definition P : Z := 256.
Definition unit : Z := 2 ^ P.

(** The odd-power series of [atanh(a/b)], scaled by [unit]. *)
Fixpoint atanh_terms (fuel : nat) (t a2 b2 k acc : Z) : Z :=
  match fuel with
  | O => acc
  | S f =>
      if t =? 0 then acc
      else atanh_terms f (Z.quot (t * a2) b2) a2 b2 (k + 2) (acc + Z.quot t k)
  end.

Definition atanh (a b : Z) : Z :=
  atanh_terms 400 (Z.quot (a * unit) b) (a * a) (b * b) 1 0.

Definition ln2 : Z := 2 * atanh 1 3.

(** [log(m * 2^e)] scaled by [unit]: the argument is brought into
    [[3/4, 3/2)] by a power of two [2^s], and
    [log y = 2 atanh((y - 1) / (y + 1))]. *)
Definition log_fixed (m : positive) (e : Z) : Z :=
  let k := Z.log2 (Zpos m) in
  let s := if 3 * 2 ^ k <=? 2 * Zpos m then k + 1 else k in
  (e + s) * ln2 + 2 * atanh (Zpos m - 2 ^ s) (Zpos m + 2 ^ s).

Definition log (x : float64) : float64 :=
  match x with
  | S754_nan => S754_nan
  | S754_zero _ => S754_infinity true
  | S754_infinity s => if s then S754_nan else x
  | S754_finite true _ _ => S754_nan
  | S754_finite false m e => binary_normalize prec emax (log_fixed m e) (- P) false
  end.

(** The Taylor series of [exp(r / unit)], scaled by [unit]. *)
Fixpoint exp_terms (fuel : nat) (t r j acc : Z) : Z :=
  match fuel with
  | O => acc
  | S f =>
      if t =? 0 then acc
      else exp_terms f (Z.quot (Z.quot (t * r) unit) j) r (j + 1) (acc + t)
  end.

(** [exp(t / unit)]: [t = k ln2 + r] with [0 <= r < ln2]. *)
Definition exp_fixed (t : Z) : float64 :=
  let k := t / ln2 in
  let r := t - k * ln2 in
  binary_normalize prec emax (exp_terms 400 unit r 1 0) (k - P) false.

Definition exp (x : float64) : float64 :=
  match x with
  | S754_nan => S754_nan
  | S754_zero _ => one
  | S754_infinity s => if s then zero else x
  | S754_finite s m e =>
      let n := if s then Zneg m else Zpos m in
      let t := if 0 <=? e + P then n * 2 ^ (e + P) else Z.quot n (2 ^ (- (e + P))) in
      if 2048 * unit <? t then inf
      else if t <? - (2048 * unit) then zero
      else exp_fixed t
  end.

End Libm.

(** ** A reference backend

    An executable instance of [Backend] in binary64 arithmetic, used to run
    the operations on concrete matrices.  It performs NumPy's argument
    validation (dimension and squareness checks, with NumPy's messages)
    and then the algorithm NumPy delegates to, operation by operation in
    the order of the reference LAPACK and BLAS routines: LU factorisation
    with partial pivoting ([getrf]) for determinants, linear systems and
    inverses, with the determinant formed through logarithms as NumPy
    does; the Cholesky factor row by row ([potrf]).  Singular values are
    read off the diagonal of a diagonal matrix, where LAPACK's are exact
    too; for any other finite matrix they come from one-sided Jacobi
    rotations, which is not LAPACK's algorithm and agrees with it up to
    rounding only.  Optimised BLAS kernels may add in another order or
    fuse a multiplication with an addition: the examples below use
    matrices on which every such choice gives the same floats. *)

Module Ref.

Definition vec : Type := list float64.
Definition mat : Type := list vec.

Fixpoint chunk (rows cols : nat) (l : vec) : mat :=
  match rows with
  | O => []
  | S r => firstn cols l :: chunk r cols (skipn cols l)
  end.

Definition floats (a : ndarray) : vec := map to_float (data a).

Definition rows_of (a : ndarray) : mat :=
  match shape a with
  | [r; c] => chunk r c (floats a)
  | _ => []
  end.

Definition of_vec (v : vec) : ndarray :=
  mk_ndarray float64_t [List.length v] (map F v).

Definition of_rows (r c : nat) (m : mat) : ndarray :=
  mk_ndarray float64_t [r; c] (map F (List.concat m)).

Fixpoint dot_acc (acc : float64) (x y : vec) : float64 :=
  match x, y with
  | a :: x', b :: y' => dot_acc (add acc (mul a b)) x' y'
  | _, _ => acc
  end.

Definition dot (x y : vec) : float64 := dot_acc zero x y.

(** [y - a * x], entry by entry. *)
Fixpoint sub_scaled (y : vec) (a : float64) (x : vec) : vec :=
  match y, x with
  | b :: y', c :: x' => sub b (mul a c) :: sub_scaled y' a x'
  | _, _ => y
  end.

Definition head_abs (r : vec) : float64 :=
  match r with
  | h :: _ => abs h
  | [] => zero
  end.

(** Index of the first row whose leading entry is largest in magnitude. *)
Fixpoint argmax_head (rows : mat) (i best : nat) (bv : float64) : nat :=
  match rows with
  | [] => best
  | r :: rest =>
      if ltb bv (head_abs r) then argmax_head rest (S i) i (head_abs r)
      else argmax_head rest (S i) best bv
  end.

Definition pivot_index (rows : mat) : nat :=
  match rows with
  | [] => 0%nat
  | r :: rest => argmax_head rest 1 0 (head_abs r)
  end.

(** Exchange row 0 and row [p]. *)
Definition swap0 {T} (p : nat) (rows : list T) : list T :=
  match p, rows with
  | S p', r0 :: rest =>
      match nth_error rest p' with
      | Some rp => rp :: firstn p' rest ++ r0 :: skipn (S p') rest
      | None => rows
      end
  | _, _ => rows
  end.

(** The smallest normal float, LAPACK's safe minimum. *)
Definition sfmin : float64 := of_scaled 1 (-1022).

(** The multiplier of a row with leading entry [h] under the pivot
    [piv]: [getrf] scales the column by the reciprocal of the pivot
    unless the pivot is tiny. *)
Definition multiplier (h piv : float64) : float64 :=
  if leb sfmin (abs piv) then mul h (div one piv) else div h piv.

(** LU factorisation with partial pivoting of an [n] by [n] matrix whose
    rows carry right-hand sides along.  A row is the pair of its
    coefficients from the current column on and of its right-hand
    sides.  The result is the upper triangular system, each row from its
    diagonal entry on, with the number of row exchanges; [None] when a
    pivot is exactly zero ([getrf]'s [info > 0]). *)
Fixpoint eliminate (n : nat) (rows : list (vec * vec))
  : option (list (vec * vec) * nat) :=
  match n with
  | O => Some ([], 0%nat)
  | S n' =>
      let p := pivot_index (map fst rows) in
      match swap0 p rows with
      | (piv :: ptail, pb) :: others =>
          if eqb piv zero then None
          else
            let reduce (r : vec * vec) :=
              match fst r with
              | h :: t =>
                  let l := multiplier h piv in
                  (sub_scaled t l ptail, sub_scaled (snd r) l pb)
              | [] => r
              end in
            match eliminate n' (map reduce others) with
            | Some (u, k) =>
                Some ((piv :: ptail, pb) :: u, if Nat.eqb p 0 then k else S k)
            | None => None
            end
      | _ => Some ([], 0%nat)
      end
  end.

(** Back substitution ([trsm] on the upper factor): the rows below are
    solved first, their multiples are subtracted last row first, and the
    row is divided by its diagonal entry. *)
Fixpoint back_substitute (u : list (vec * vec)) : mat :=
  match u with
  | [] => []
  | (urow, b) :: rest =>
      let xs := back_substitute rest in
      match urow with
      | piv :: coeffs =>
          let acc := fold_left (fun acc cx => sub_scaled acc (fst cx) (snd cx))
                               (rev (combine coeffs xs)) b in
          map (fun v => div v piv) acc :: xs
      | [] => xs
      end
  end.

(** [np.linalg.det] on an [n] by [n] matrix: the sign is that of the
    permutation times the signs of the pivots, the magnitude is the
    exponential of the sum of the logarithms of their absolute values; a
    zero pivot gives sign 0 and logarithm minus infinity, hence 0. *)
Definition lu_det (n : nat) (rows : mat) : float64 :=
  match eliminate n (map (fun r => (r, [])) rows) with
  | None => mul zero (Libm.exp (S754_infinity true))
  | Some (u, k) =>
      let pivots := map (fun r => hd zero (fst r)) u in
      let sign := fold_left (fun s d => if ltb d zero then opp s else s) pivots
                            (if Nat.even k then one else opp one) in
      let logdet := fold_left (fun acc d => add acc (Libm.log (abs d))) pivots zero in
      mul sign (Libm.exp logdet)
  end.

(** Solution of a square system with the right-hand sides [b], one row
    of [b] per equation ([gesv]). *)
Definition solve_rows (n : nat) (rows : mat) (b : mat) : np_result mat :=
  match eliminate n (combine rows b) with
  | None => inl (LinAlgError "Singular matrix")
  | Some (u, _) => inr (back_substitute u)
  end.

Definition unit_vec (n j : nat) : vec :=
  map (fun i => if Nat.eqb i j then one else zero) (seq 0 n).

Definition column (j : nat) (rows : mat) : vec :=
  map (fun r => nth j r zero) rows.

Definition transpose_rows (cols : nat) (rows : mat) : mat :=
  map (fun j => column j rows) (seq 0 cols).

(** Entries of row [i] of the Cholesky factor left of the diagonal,
    from the finished rows [above] and row [i] of the matrix. *)
Fixpoint chol_offdiag (above : mat) (arow : vec) (acc : vec) : vec :=
  match above, arow with
  | lj :: above', aij :: arow' =>
      let j := List.length acc in
      let s := dot acc (firstn j lj) in
      chol_offdiag above' arow' (acc ++ [div (sub aij s) (nth j lj zero)])
  | _, _ => acc
  end.

(** The factorisation stops at a pivot that is zero or negative; a NaN
    pivot is neither, and its square root, a NaN, goes into the factor. *)
Fixpoint chol_rows (rows : mat) (above : mat) : np_result mat :=
  match rows with
  | [] => inr above
  | arow :: rest =>
      let i := List.length above in
      let left := chol_offdiag above arow [] in
      let d := sub (nth i arow zero) (dot left left) in
      if leb d zero then inl (LinAlgError "Matrix is not positive definite")
      else chol_rows rest (above ++ [left ++ [sqrt d]])
  end.

Definition pad (n : nat) (r : vec) : vec :=
  r ++ repeat zero (n - List.length r).

(** NumPy's [_assert_stacked_2d] and [_assert_stacked_square]. *)
Definition assert_square (a : ndarray) : np_result nat :=
  match shape a with
  | [] | [_] =>
      inl (LinAlgError
             (str_nat (ndim a) ++ "-dimensional array given. "
                ++ "Array must be at least two-dimensional"))
  | [r; c] =>
      if Nat.eqb r c then inr r
      else inl (LinAlgError "Last 2 dimensions of the array must be square")
  | _ => inl (ValueError "stacked matrices are outside this instance")
  end.

Definition det (a : ndarray) : np_result float64 :=
  match assert_square a with
  | inl e => inl e
  | inr n => inr (lu_det n (rows_of a))
  end.

Definition solve (a b : ndarray) : np_result ndarray :=
  match assert_square a with
  | inl e => inl e
  | inr n =>
      match shape b with
      | [m] =>
          if Nat.eqb m n then
            match solve_rows n (rows_of a) (map (fun x => [x]) (floats b)) with
            | inl e => inl e
            | inr x => inr (of_vec (List.concat x))
            end
          else inl (ValueError
                      ("solve: Input operand 1 has a mismatch in its core "
                         ++ "dimension 0, with gufunc signature (m,m),(m)->(m)"))
      | [m; k] =>
          if Nat.eqb m n then
            match solve_rows n (rows_of a) (rows_of b) with
            | inl e => inl e
            | inr x => inr (of_rows n k x)
            end
          else inl (ValueError
                      ("solve: Input operand 1 has a mismatch in its core "
                         ++ "dimension 0, with gufunc signature (m,m),(m,n)->(m,n)"))
      | _ => inl (ValueError "right-hand side outside this instance")
      end
  end.

(** [np.linalg.inv]: the system solved against the identity. *)
Definition inv (a : ndarray) : np_result ndarray :=
  match assert_square a with
  | inl e => inl e
  | inr n =>
      match solve_rows n (rows_of a) (map (unit_vec n) (seq 0 n)) with
      | inl e => inl e
      | inr x => inr (of_rows n n x)
      end
  end.

Definition cholesky (a : ndarray) : np_result ndarray :=
  match assert_square a with
  | inl e => inl e
  | inr n =>
      match chol_rows (rows_of a) [] with
      | inl e => inl e
      | inr l => inr (of_rows n n (map (pad n) l))
      end
  end.

(** *** Singular values and eigenpairs *)

Fixpoint offdiag_zero (i : nat) (rows : mat) : bool :=
  match rows with
  | [] => true
  | r :: rest =>
      forallb (fun jx => Nat.eqb (fst jx) i || eqb (snd jx) zero)
              (combine (seq 0 (List.length r)) r)
        && offdiag_zero (S i) rest
  end.

Definition is_diagonal (a : ndarray) : bool := offdiag_zero 0 (rows_of a).

Fixpoint diagonal (i : nat) (rows : mat) : vec :=
  match rows with
  | [] => []
  | r :: rest =>
      match nth_error r i with
      | Some x => x :: diagonal (S i) rest
      | None => []
      end
  end.

Fixpoint insert_desc (x : float64) (l : vec) : vec :=
  match l with
  | [] => [x]
  | y :: l' => if leb y x then x :: l else y :: insert_desc x l'
  end.

Definition sort_desc (l : vec) : vec := fold_right insert_desc [] l.

Definition is_finite (x : float64) : bool :=
  match x with
  | S754_nan | S754_infinity _ => false
  | _ => true
  end.

(** One rotation of one-sided Jacobi: the two columns are turned in
    their plane until they are orthogonal.  The flag tells whether
    anything was done. *)
Definition rotate (x y : vec) : vec * vec * bool :=
  let alpha := dot x x in
  let beta := dot y y in
  let gamma := dot x y in
  if leb (abs gamma) (mul eps (sqrt (mul alpha beta))) then (x, y, false)
  else
    let zeta := div (sub beta alpha) (mul (of_Z 2) gamma) in
    let t := div (if ltb zeta zero then opp one else one)
                 (add (abs zeta) (sqrt (add one (mul zeta zeta)))) in
    let c := div one (sqrt (add one (mul t t))) in
    let s := mul c t in
    (map (fun ab => sub (mul c (fst ab)) (mul s (snd ab))) (combine x y),
     map (fun ab => add (mul s (fst ab)) (mul c (snd ab))) (combine x y),
     true).

Fixpoint rotate_against (x : vec) (rest : list vec) : vec * list vec * bool :=
  match rest with
  | [] => (x, [], false)
  | y :: rest' =>
      let '(x1, y1, r1) := rotate x y in
      let '(x2, rest2, r2) := rotate_against x1 rest' in
      (x2, y1 :: rest2, r1 || r2)
  end.

(** One sweep over all pairs of columns. *)
Fixpoint sweep (n : nat) (cols : list vec) : list vec * bool :=
  match n, cols with
  | S n', x :: rest =>
      let '(x', rest', r) := rotate_against x rest in
      let (rest'', r') := sweep n' rest' in
      (x' :: rest'', r || r')
  | _, _ => (cols, false)
  end.

Fixpoint sweeps (fuel : nat) (cols : list vec) : list vec :=
  match fuel with
  | O => cols
  | S f =>
      let (cols', rotated) := sweep (List.length cols) cols in
      if rotated then sweeps f cols' else cols'
  end.

Definition jacobi_values (cols : list vec) : vec :=
  map (fun x => sqrt (dot x x)) (sweeps 60 cols).

(** [np.linalg.svd(a, compute_uv=False)] for a two-dimensional [a].
    LAPACK's [gesdd] reports an entry that is not finite as a failure,
    which NumPy raises as non-convergence. *)
Definition svd_values (a : ndarray) : np_result vec :=
  match shape a with
  | [r; c] =>
      if negb (forallb is_finite (floats a)) then
        inl (LinAlgError "SVD did not converge")
      else if is_diagonal a then inr (sort_desc (map abs (diagonal 0 (rows_of a))))
      else
        inr (sort_desc
               (jacobi_values (if (r <? c)%nat then rows_of a
                               else transpose_rows c (rows_of a))))
  | [] | [_] =>
      inl (LinAlgError
             (str_nat (ndim a) ++ "-dimensional array given. "
                ++ "Array must be at least two-dimensional"))
  | _ => inl (ValueError "stacked matrices are outside this instance")
  end.

(** [np.linalg.cond(a)] with the default [p]: the ratio of the largest
    to the smallest singular value, a NaN ratio read as infinity unless
    [a] itself holds a NaN. *)
Definition cond (a : ndarray) : np_result float64 :=
  match shape a with
  | [r; c] =>
      if Nat.eqb (r * c) 0 then
        inl (LinAlgError "cond is not defined on empty arrays")
      else
        match svd_values a with
        | inl e => inl e
        | inr s =>
            let q := div (hd nan s) (last s nan) in
            inr (if is_nan q && negb (existsb is_nan (floats a)) then inf else q)
        end
  | _ =>
      match svd_values a with
      | inl e => inl e
      | inr _ => inl (ValueError "stacked matrices are outside this instance")
      end
  end.

(** [np.linalg.eig]: NumPy's check for entries that are not finite, then
    the eigenpairs of a diagonal matrix.  This instance has no
    eigen-solver for other matrices and reports a failure there, which
    NumPy does not; no statement below runs it. *)
Definition eig (a : ndarray) : np_result (ndarray * ndarray) :=
  match assert_square a with
  | inl e => inl e
  | inr n =>
      if existsb (fun x => match x with
                           | S754_nan | S754_infinity _ => true
                           | _ => false
                           end) (floats a)
      then inl (LinAlgError "Array must not contain infs or NaNs")
      else if is_diagonal a then
        inr (of_vec (diagonal 0 (rows_of a)),
             of_rows n n (map (unit_vec n) (seq 0 n)))
      else inl (LinAlgError "Eigenvalues did not converge")
  end.

(** *** [np.linalg.norm]: dispatch on dimension and order *)

Definition sum_abs (v : vec) : float64 :=
  fold_left (fun acc x => add acc (abs x)) v zero.

Definition fmax (x y : float64) : float64 :=
  if is_nan x then x else if is_nan y then y else if ltb x y then y else x.

Definition fmin (x y : float64) : float64 :=
  if is_nan x then x else if is_nan y then y else if ltb y x then y else x.

Definition reduce (op : float64 -> float64 -> float64) (name : string) (v : vec)
  : np_result float64 :=
  match v with
  | [] => inl (ValueError ("zero-size array to reduction operation " ++ name
                             ++ " which has no identity"))
  | x :: rest => inr (fold_left op rest x)
  end.

Definition norm (v : ndarray) (ord : norm_order) : np_result float64 :=
  let x := floats v in
  match shape v, ord with
  | _, OrdNone => inr (sqrt (dot x x))
  | [_], OrdInt 2 => inr (sqrt (dot x x))
  | [_], OrdInt 1 => inr (sum_abs x)
  | [_], OrdInt 0 =>
      inr (of_Z (Z.of_nat (List.length (filter (fun y => negb (eqb y zero)) x))))
  | [_], OrdInf => reduce fmax "maximum" (map abs x)
  | [_], OrdNegInf => reduce fmin "minimum" (map abs x)
  | [_], OrdFro => inl (ValueError "Invalid norm order 'fro' for vectors")
  | [_], OrdNuc => inl (ValueError "Invalid norm order 'nuc' for vectors")
  | [_], OrdInt _ => inl (ValueError "general p-norms are outside this instance")
  | [_; _], OrdFro => inr (sqrt (dot x x))
  | [_; _], OrdInt 2 =>
      match svd_values v with
      | inl e => inl e
      | inr s => reduce fmax "maximum" s
      end
  | [_; _], OrdInt (-2) =>
      match svd_values v with
      | inl e => inl e
      | inr s => reduce fmin "minimum" s
      end
  | [_; c], OrdInt 1 =>
      reduce fmax "maximum" (map sum_abs (transpose_rows c (rows_of v)))
  | [_; c], OrdInt (-1) =>
      reduce fmin "minimum" (map sum_abs (transpose_rows c (rows_of v)))
  | [_; _], OrdInf => reduce fmax "maximum" (map sum_abs (rows_of v))
  | [_; _], OrdNegInf => reduce fmin "minimum" (map sum_abs (rows_of v))
  | [_; _], OrdNuc =>
      match svd_values v with
      | inl e => inl e
      | inr s => inr (fold_left add s zero)
      end
  | [_; _], OrdInt _ => inl (ValueError "Invalid norm order for matrices.")
  | _, _ => inl (ValueError "Improper number of dimensions to norm.")
  end.

(** *** [np.array(data, dtype=np.float64)] on nested lists *)

Definition shape_eqb (s t : shape_t) : bool :=
  (List.length s =? List.length t)%nat
    && forallb (fun p => Nat.eqb (fst p) (snd p)) (combine s t).

Definition inhomogeneous : np_error :=
  ValueError ("setting an array element with a sequence. "
                ++ "The requested array has an inhomogeneous shape").

Fixpoint build (o : pyobj) : np_result (shape_t * vec) :=
  match o with
  | PyInt z =>
      match of_Z z with
      | S754_infinity _ => inl (OverflowError "int too large to convert to float")
      | x => inr ([], [x])
      end
  | PyFloat x => inr ([], [x])
  | PyBool b => inr ([], [if b then one else zero])
  | PyNone => inr ([], [nan])
  | PyObject t =>
      inl (TypeError ("float() argument must be a string or a real number, not '"
                        ++ t ++ "'"))
  | PyList items =>
      let fix go (l : list pyobj) : np_result (option shape_t * vec) :=
        match l with
        | [] => inr (None, [])
        | x :: rest =>
            match build x with
            | inl e => inl e
            | inr (s, d) =>
                match go rest with
                | inl e => inl e
                | inr (None, _) => inr (Some s, d)
                | inr (Some s', d') =>
                    if shape_eqb s s' then inr (Some s, d ++ d')
                    else inl inhomogeneous
                end
            end
        end in
      match go items with
      | inl e => inl e
      | inr (None, _) => inr ([0%nat], [])
      | inr (Some s, d) => inr (List.length items :: s, d)
      end
  end.

Definition array (o : pyobj) (dt : dtype) : np_result ndarray :=
  match dt with
  | float64_t =>
      match build o with
      | inl e => inl e
      | inr (s, d) => inr (mk_ndarray float64_t s (map F d))
      end
  | _ => inl (TypeError "only float64 storage is built by this instance")
  end.

(** *** [np.dot], in float64 *)

Definition dot_arrays (a b : ndarray) : np_result ndarray :=
  let misaligned :=
    inl (ValueError ("shapes " ++ repr_shape (shape a) ++ " and "
                       ++ repr_shape (shape b) ++ " not aligned")) in
  match shape a, shape b with
  | [n], [m] =>
      if Nat.eqb n m then inr (mk_ndarray float64_t [] [F (dot (floats a) (floats b))])
      else misaligned
  | [r; n], [m] =>
      if Nat.eqb n m then inr (of_vec (map (fun row => dot row (floats b)) (rows_of a)))
      else misaligned
  | [r; n], [m; c] =>
      if Nat.eqb n m then
        inr (of_rows r c
               (map (fun row => map (dot row) (transpose_rows c (rows_of b)))
                    (rows_of a)))
      else misaligned
  | _, _ => inl (ValueError "operand ranks outside this instance")
  end.

(** *** Python's [format(x, '.2e')] *)

Definition digit (d : Z) : string :=
  String (ascii_of_nat (48 + Z.to_nat d)) EmptyString.

Definition le_pow10 (k num den : Z) : bool :=
  if (0 <=? k)%Z then (10 ^ k * den <=? num)%Z
  else (den <=? num * 10 ^ (- k))%Z.

(** The largest [k'] at most [k] with [10^k' <= num/den]. *)
Fixpoint decade (fuel : nat) (k num den : Z) : Z :=
  match fuel with
  | O => k
  | S f => if le_pow10 k num den then k else decade f (k - 1)%Z num den
  end.

Definition round_half_even (num den : Z) : Z :=
  let q := (num / den)%Z in
  match (2 * (num mod den) ?= den)%Z with
  | Lt => q
  | Gt => (q + 1)%Z
  | Eq => if Z.even q then q else (q + 1)%Z
  end.

Definition format_2e (x : float64) : string :=
  match x with
  | S754_nan => "nan"
  | S754_infinity s => if s then "-inf" else "inf"
  | S754_zero s => (if s then "-" else "") ++ "0.00e+00"
  | S754_finite s m e =>
      let num := if (0 <=? e)%Z then (Zpos m * 2 ^ e)%Z else Zpos m in
      let den := if (0 <=? e)%Z then 1%Z else (2 ^ (- e))%Z in
      let k := decade 700 309 num den in
      let sc := (k - 2)%Z in
      let d := if (0 <=? sc)%Z then round_half_even num (den * 10 ^ sc)
               else round_half_even (num * 10 ^ (- sc)) den in
      let dk := if (1000 <=? d)%Z then (100, k + 1)%Z else (d, k) in
      let d := fst dk in
      let k := snd dk in
      (if s then "-" else "")
        ++ digit (d / 100) ++ "." ++ digit ((d / 10) mod 10) ++ digit (d mod 10)
        ++ "e" ++ (if (k <? 0)%Z then "-" else "+")
        ++ (if (Z.abs k <? 10)%Z then "0" else "")
        ++ str_nat (Z.to_nat (Z.abs k))
  end.

Definition numpy : Backend :=
  mk_Backend array dot_arrays det cond inv eig solve norm cholesky format_2e.

End Ref.

(** ** Concrete matrices used below *)

Module Examples.

Definition vector (l : list Z) : ndarray :=
  mk_ndarray float64_t [List.length l] (map (fun z => F (of_Z z)) l).

Definition dense (r c : nat) (l : list Z) : ndarray :=
  mk_ndarray float64_t [r; c] (map (fun z => F (of_Z z)) l).

(** The [n] by [n] diagonal matrix with diagonal [d]. *)
Definition diag (d : list Z) : ndarray :=
  let n := List.length d in
  mk_ndarray float64_t [n; n]
    (List.concat
       (map (fun ix => map (fun j => F (if Nat.eqb j (fst ix) then of_Z (snd ix) else zero))
                           (seq 0 n))
            (combine (seq 0 n) d))).

(** [[1, 0], [0, 0]]: singular, condition number infinite. *)
Definition singular2 : ndarray := diag [1; 0]%Z.

(** [[2, 0], [0, 4]]: condition number 2. *)
Definition regular2 : ndarray := diag [2; 4]%Z.

(** [[3, 0], [0, 4]]: largest singular value 4, Frobenius norm 5. *)
Definition diag34 : ndarray := diag [3; 4]%Z.

(** 11 by 11 diagonal matrices: the diagonal [x, 1, ..., 1] has
    condition number [x] for [x >= 1]. *)
Definition diag11 (x : Z) : ndarray := diag (x :: repeat 1%Z 10).

(** Condition number exactly [1e10], and the next integer above it. *)
Definition at_threshold11 : ndarray := diag11 (10 ^ 10).
Definition above_threshold11 : ndarray := diag11 (10 ^ 10 + 1).

(** The diagonal [1, ..., 1, 0]: determinant 0, condition number
    infinite. *)
Definition singular11 : ndarray := diag (repeat 1%Z 10 ++ [0%Z]).

(** An 11 by 11 matrix of NaNs. *)
Definition nan11 : ndarray :=
  mk_ndarray float64_t [11%nat; 11%nat] (repeat (F nan) 121).


(** A 2 by 3 and a 4 by 2 matrix. *)
Definition wide23 : ndarray := dense 2 3 [1; 2; 3; 4; 5; 6]%Z.
Definition tall42 : ndarray := dense 4 2 [1; 2; 3; 4; 5; 6; 7; 8]%Z.

(** [[1, 2], [3]]: rows of unequal length. *)
Definition ragged : pyobj :=
  PyList [PyList [PyInt 1; PyInt 2]; PyList [PyInt 3]].

(** [[1, 2], [3, 4]] as Python integers. *)
Definition ints22 : pyobj :=
  PyList [PyList [PyInt 1; PyInt 2]; PyList [PyInt 3; PyInt 4]].

(** [[1.0, None]]: a non-numeric element. *)
Definition with_none : pyobj := PyList [PyList [PyFloat one; PyNone]].

End Examples.

(** ** Vocabulary of the statements *)

(** Whether an outcome is an exception of the class called [cls]. *)
Definition raises {R} (cls : string) (o : outcome R) : bool :=
  match o with
  | Raised e => String.eqb (class_name e) cls
  | Returned _ => false
  end.

(** The world after a run started in [w] with the calls [cs] appended. *)
Definition logged (w : world) (cs : list kcall) : world :=
  mk_world (calls w ++ cs) (warnings w).

Ltac unfold_monad :=
  unfold bind, backend, ret, raise, warn, lift, try_except_LinAlgError, logged in *.

(** A backend result as the outcome of the call that produced it. *)
Definition of_np {R} (r : np_result R) : outcome R :=
  match r with
  | inr v => Returned v
  | inl e => Raised (Foreign e)
  end.

(** The text of the advisory for a condition number [c]. *)
Definition advisory (K : Backend) (c : float64) : warning :=
  RuntimeWarning ("Matrix has high condition number (" ++ format_2e K c
                    ++ "). Determinant may be numerically unreliable.").

(** NumPy's [cholesky] reports a two-dimensional argument that is not
    square as a [LinAlgError], the class it also uses for a failed
    factorisation. *)
Definition cholesky_rejects_nonsquare (K : Backend) : Prop :=
  forall (a : ndarray) (r c : nat),
    shape a = [r; c] -> r <> c ->
    exists m, np_linalg_cholesky K a = inl (LinAlgError m).

(** ** [cross_product]

    [np.cross] joins the backend as the one routine of [Routines]; the
    operation is given by its outcome alone. *)

Record Routines : Type := mk_Routines {
  np_cross : ndarray -> ndarray -> np_result ndarray
}.

(** The guard [v.shape != (3,)], negated. *)
Definition is_3d_vector (v : ndarray) : bool :=
  match shape v with
  | [d] => Nat.eqb d 3
  | _ => false
  end.

Section MoreOperations.

Variable T : Routines.

Definition cross_product (v1 v2 : ndarray) : outcome ndarray :=
  if negb (is_3d_vector v1) || negb (is_3d_vector v2) then
    Raised (Anvaya (new_DimensionMismatchError
                      ("Cross product requires 3D vectors, got shapes "
                         ++ repr_shape (shape v1) ++ " and " ++ repr_shape (shape v2))
                      None None))
  else
    match np_cross T v1 v2 with
    | inr r => Returned r
    | inl e => Raised (Foreign e)
    end.

End MoreOperations.

(** Entry [(i, j)] of a two-dimensional array, [None] out of bounds. *)
Definition entry (A : ndarray) (i j : nat) : option scalar :=
  match shape A with
  | [r; c] =>
      if (i <? r)%nat && (j <? c)%nat then nth_error (data A) (i * c + j) else None
  | _ => None
  end.

(** An array is well formed when it holds as many elements as its shape
    announces. *)
Definition well_formed (A : ndarray) : Prop :=
  List.length (data A) = fold_right Nat.mul 1%nat (shape A).


(** ** Python's [str] of a float

    An executable rendering used to run examples: the shortest decimal
    digit string that reads back as the same binary64 value, laid out as
    Python's [repr] lays it out (fixed notation for decimal exponents from
    -4 to 15, scientific notation otherwise). *)

Module Runtime.

(** [n * 2^a * 10^b], compared exactly. *)
Definition scaled_compare (x y : Z * Z * Z) : comparison :=
  let '(n1, a1, b1) := x in
  let '(n2, a2, b2) := y in
  let a := Z.min a1 a2 in
  let b := Z.min b1 b2 in
  (n1 * 2 ^ (a1 - a) * 10 ^ (b1 - b) ?= n2 * 2 ^ (a2 - a) * 10 ^ (b2 - b))%Z.

(** Whether the decimal [c * 10^p] rounds to the float [m * 2^e]. *)
Definition reads_back (m : positive) (e c p : Z) : bool :=
  let boundary := Pos.eqb m (2 ^ 52) && (-1074 <? e)%Z in
  let lo := if boundary then (4 * Zpos m - 1, e - 2, 0)%Z
            else (2 * Zpos m - 1, e - 1, 0)%Z in
  let hi := (2 * Zpos m + 1, e - 1, 0)%Z in
  let even := Z.even (Zpos m) in
  let above_lo := match scaled_compare lo (c, 0, p)%Z with
                  | Lt => true
                  | Eq => even
                  | Gt => false
                  end in
  let below_hi := match scaled_compare (c, 0, p)%Z hi with
                  | Lt => true
                  | Eq => even
                  | Gt => false
                  end in
  above_lo && below_hi.

(** The [nd]-digit decimals just below and just above [m * 2^e], and the
    one of them Python prints, if either reads back. *)
Definition candidate (m : positive) (e k : Z) (nd : nat) : option (Z * Z) :=
  let p := (k + 1 - Z.of_nat nd)%Z in
  let num := if (0 <=? e)%Z then (Zpos m * 2 ^ e)%Z else Zpos m in
  let den := if (0 <=? e)%Z then 1%Z else (2 ^ (- e))%Z in
  let below := if (0 <=? p)%Z then (num / (den * 10 ^ p))%Z
               else (num * 10 ^ (- p) / den)%Z in
  let above := (below + 1)%Z in
  let ok_below := reads_back m e below p in
  let ok_above := reads_back m e above p in
  if ok_below && ok_above then
    match scaled_compare (2 * Zpos m, e, 0)%Z (below + above, 0, p)%Z with
    | Lt => Some (below, p)
    | Gt => Some (above, p)
    | Eq => Some (if Z.even below then below else above, p)
    end
  else if ok_below then Some (below, p)
  else if ok_above then Some (above, p)
  else None.

Fixpoint shortest (m : positive) (e k : Z) (nd fuel : nat) : Z * Z :=
  match fuel with
  | O => (Zpos m, 0%Z)
  | S f =>
      match candidate m e k nd with
      | Some cp => cp
      | None => shortest m e k (S nd) f
      end
  end.

(** Trailing zeros moved from the digits into the exponent. *)
Fixpoint strip_zeros (fuel : nat) (c p : Z) : Z * Z :=
  match fuel with
  | O => (c, p)
  | S f => if (c mod 10 =? 0)%Z then strip_zeros f (c / 10)%Z (p + 1)%Z else (c, p)
  end.

Definition digits_of (c : Z) : string := NilZero.string_of_int (Z.to_int c).

Definition zeros (k : Z) : string :=
  string_of_list_ascii (repeat "0"%char (Z.to_nat k)).

Definition str_float (x : float64) : string :=
  match x with
  | S754_nan => "nan"
  | S754_infinity s => if s then "-inf" else "inf"
  | S754_zero s => if s then "-0.0" else "0.0"
  | S754_finite s m e =>
      let num := if (0 <=? e)%Z then (Zpos m * 2 ^ e)%Z else Zpos m in
      let den := if (0 <=? e)%Z then 1%Z else (2 ^ (- e))%Z in
      let k := Ref.decade 700 309 num den in
      let '(c0, p0) := shortest m e k 1 17 in
      let '(c, p) := strip_zeros 20 c0 p0 in
      let ds := digits_of c in
      let nd := Z.of_nat (String.length ds) in
      let decpt := (nd + p)%Z in
      let body :=
        (if (-4 <? decpt)%Z && (decpt <=? 16)%Z then
          if (decpt <=? 0)%Z then "0." ++ zeros (- decpt) ++ ds
          else if (nd <=? decpt)%Z then ds ++ zeros (decpt - nd) ++ ".0"
          else substring 0 (Z.to_nat decpt) ds ++ "."
                 ++ substring (Z.to_nat decpt) (Z.to_nat (nd - decpt)) ds
        else
          let ex := (decpt - 1)%Z in
          substring 0 1 ds
            ++ (if (1 <? nd)%Z then "." ++ substring 1 (Z.to_nat (nd - 1)) ds else "")
            ++ "e" ++ (if (ex <? 0)%Z then "-" else "+")
            ++ (if (Z.abs ex <? 10)%Z then "0" else "")
            ++ str_nat (Z.to_nat (Z.abs ex)))%string in
      ((if s then "-" else "") ++ body)%string
  end.

End Runtime.

(** ** The remaining constructors of [exceptions.py] *)

(** Python's [str] of an integer. *)
Definition str_Z (z : Z) : string := NilZero.string_of_int (Z.to_int z).

(** [ConvergenceError.__init__(message, iterations=None, last_value=None)]. *)
Definition new_ConvergenceError
    (message : string) (iterations : option Z) (last_value : option float64)
  : anvaya_error :=
  match iterations with
  | Some n =>
      ConvergenceError (message ++ " after " ++ str_Z n ++ " iterations")
                       iterations last_value
  | None => ConvergenceError message iterations last_value
  end.

(** [InvalidInputError.__init__(message, parameter=None, value=None,
    constraint=None)].  The [value] attribute is represented by the text
    [str(value)], which is all the constructor uses of it. *)
Definition new_InvalidInputError
    (message : string) (parameter value constraint : option string)
  : anvaya_error :=
  match parameter with
  | Some p =>
      match value, constraint with
      | Some v, Some c =>
          InvalidInputError ("Invalid " ++ p ++ "=" ++ v ++ ": " ++ c)
                            parameter value constraint
      | Some v, None =>
          InvalidInputError ("Invalid " ++ p ++ "=" ++ v) parameter value constraint
      | None, _ => InvalidInputError message parameter value constraint
      end
  | None => InvalidInputError message parameter value constraint
  end.

(** [str(e)] for an exception of the library. *)
Definition message_of (e : anvaya_error) : string :=
  match e with
  | SingularMatrixError m _ => m
  | ConvergenceError m _ _ => m
  | DimensionMismatchError m _ _ => m
  | InvalidInputError m _ _ _ => m
  end.

(** ** [probability.py]: validation of parameters and Bayes' rule

    The functions modelled here are pure float computations and guards;
    the density, distribution and sampling methods only forward to SciPy
    and NumPy and are not modelled, except [Normal.ppf], which validates
    its argument first. *)

Module Probability.

(** What these functions raise: the library's [InvalidInputError], or
    Python's [ZeroDivisionError]. *)
Inductive error : Type :=
| Library (e : anvaya_error)
| ZeroDivisionError (message : string).

Inductive result (R : Type) : Type :=
| Ok (r : R)
| Fail (e : error).

Arguments Ok {R} r.
Arguments Fail {R} e.

Definition and_then {R S} (c : result R) (k : R -> result S) : result S :=
  match c with
  | Ok r => k r
  | Fail e => Fail e
  end.

(** The chained comparison [0 <= value <= 1]. *)
Definition in_unit_interval (value : float64) : bool :=
  leb zero value && leb value one.

(** Python's [x / y] on floats. *)
Definition truediv (x y : float64) : result float64 :=
  if eqb y zero then Fail (ZeroDivisionError "float division by zero")
  else Ok (div x y).

Record Normal : Type := mk_Normal { mean : float64; std : float64 }.
Record Binomial : Type := mk_Binomial { n : Z; p : float64 }.
Record Poisson : Type := mk_Poisson { mu : float64 }.

Section WithRuntime.

(** Python's [str] of a float, as an f-string renders it. *)
Variable str_float : float64 -> string.

(** SciPy's [stats.norm.ppf(q, loc, scale)]. *)
Variable stats_norm_ppf : float64 -> float64 -> float64 -> float64.

Definition _validate_probability (value : float64) (name : string) : result unit :=
  if negb (in_unit_interval value) then
    Fail (Library (new_InvalidInputError
                     (name ++ " must be in [0, 1], got " ++ str_float value)
                     (Some name) (Some (str_float value))
                     (Some "must be between 0 and 1")))
  else Ok tt.

(** [Normal(mean, std)]: the dataclass constructor followed by
    [__post_init__]. *)
Definition Normal_init (mean std : float64) : result Normal :=
  if leb std zero then
    Fail (Library (new_InvalidInputError "Standard deviation must be positive"
                     (Some "std") (Some (str_float std)) None))
  else Ok (mk_Normal mean std).

Definition Binomial_init (n : Z) (p : float64) : result Binomial :=
  if (n <? 0)%Z then
    Fail (Library (new_InvalidInputError "n must be non-negative"
                     (Some "n") (Some (str_Z n)) None))
  else and_then (_validate_probability p "p") (fun _ => Ok (mk_Binomial n p)).

Definition Poisson_init (mu : float64) : result Poisson :=
  if ltb mu zero then
    Fail (Library (new_InvalidInputError "mu must be non-negative"
                     (Some "mu") (Some (str_float mu)) None))
  else Ok (mk_Poisson mu).

(** [Normal.ppf(q)]. *)
Definition Normal_ppf (self : Normal) (q : float64) : result float64 :=
  and_then (_validate_probability q "quantile")
           (fun _ => Ok (stats_norm_ppf q (mean self) (std self))).

(** The factory functions; [None] stands for an argument left out. *)
Definition normal_dist (mean std : option float64) : result Normal :=
  Normal_init (match mean with Some m => m | None => zero end)
              (match std with Some s => s | None => one end).

Definition binomial_dist (n : Z) (p : float64) : result Binomial :=
  Binomial_init n p.

Definition poisson_dist (mu : float64) : result Poisson := Poisson_init mu.

Definition bayes_theorem (p_b_given_a p_a p_b : float64) (validate : bool)
  : result float64 :=
  and_then
    (if validate then
       and_then (_validate_probability p_b_given_a "p_b_given_a") (fun _ =>
       and_then (_validate_probability p_a "p_a") (fun _ =>
       and_then (_validate_probability p_b "p_b") (fun _ =>
       if eqb p_b zero then
         Fail (ZeroDivisionError "p_b cannot be zero (event B has zero probability)")
       else Ok tt)))
     else Ok tt)
    (fun _ => truediv (mul p_b_given_a p_a) p_b).

End WithRuntime.

End Probability.

(** ** [optimization.py]: [gradient_descent]

    The points are one-dimensional float arrays, given by their
    elements.  The gradient callback is a function of the current point;
    [np.linalg.norm] is the backend's. *)

Module Optimization.

Definition as_array (l : list float64) : ndarray :=
  mk_ndarray float64_t [List.length l] (map F l).

Fixpoint zip_add (x d : list float64) : list float64 :=
  match x, d with
  | a :: x', b :: d' => add a b :: zip_add x' d'
  | _, _ => []
  end.

(** [x += diff] on one-dimensional arrays: element by element when the
    lengths agree, a one-element [diff] added to every element, and a
    broadcasting [ValueError] otherwise. *)
Definition iadd (x diff : list float64) : outcome (list float64) :=
  if Nat.eqb (List.length diff) (List.length x) then Returned (zip_add x diff)
  else
    match diff with
    | [d] => Returned (map (fun a => add a d) x)
    | _ => Raised (Foreign (ValueError "operands could not be broadcast together"))
    end.

(** The literals [0.01], [1000] and [1e-6]. *)
Definition default_learning_rate : float64 := div one (of_Z 100).
Definition default_max_iter : Z := 1000.
Definition default_tol : float64 := div one (of_Z 1000000).

Section GradientDescent.

Variable K : Backend.
Variable Func : Type.

(** The body of the [for] loop, run at most [iterations] times. *)
Fixpoint descend (grad : list float64 -> list float64)
         (learning_rate tol : float64) (iterations : nat) (x : list float64)
  : outcome (list float64) :=
  match iterations with
  | O => Returned x
  | S rest =>
      let g := grad x in
      let diff := map (mul (opp learning_rate)) g in
      match np_linalg_norm K (as_array diff) OrdNone with
      | inl e => Raised (Foreign e)
      | inr step =>
          if ltb step tol then Returned x
          else
            match iadd x diff with
            | Returned x' => descend grad learning_rate tol rest x'
            | Raised e => Raised e
            end
      end
  end.

(** [gradient_descent(func, grad, x0, learning_rate=0.01, max_iter=1000,
    tol=1e-6)]; [None] stands for an argument left out. *)
Definition gradient_descent (func : Func) (grad : list float64 -> list float64)
           (x0 : list float64) (learning_rate : option float64)
           (max_iter : option Z) (tol : option float64)
  : outcome (list float64) :=
  descend grad
          (match learning_rate with Some r => r | None => default_learning_rate end)
          (match tol with Some t => t | None => default_tol end)
          (Z.to_nat (match max_iter with Some k => k | None => default_max_iter end))
          x0.

End GradientDescent.

(** Sequencing of two runs. *)
Definition and_then {R S} (o : outcome R) (k : R -> outcome S) : outcome S :=
  match o with
  | Returned r => k r
  | Raised e => Raised e
  end.

End Optimization.

(** ** [probability.py]: [expected_value] and [variance_discrete]

    The arguments are lists of floats.  NumPy's summation of a float
    array is a parameter (its rounding depends on the order NumPy adds
    in); the element-wise product and the closeness test are written
    out. *)

Module Discrete.

(** The literals [1e-6] ([rtol]) and [1e-8] (NumPy's default [atol]). *)
Definition rtol : float64 := div one (of_Z 1000000).
Definition atol : float64 := div one (of_Z 100000000).

(** [np.isclose(s, 1.0, rtol=1e-6)]: [abs(s - 1.0) <= atol + rtol * abs(1.0)]. *)
Definition isclose_one (s : float64) : bool :=
  leb (abs (sub s one)) (add atol (mul rtol (abs one))).

Fixpoint zip_mul (x y : list float64) : list float64 :=
  match x, y with
  | a :: x', b :: y' => mul a b :: zip_mul x' y'
  | _, _ => []
  end.

(** [x * y] on one-dimensional arrays, with NumPy's broadcasting. *)
Definition multiply (x y : list float64) : outcome (list float64) :=
  if Nat.eqb (List.length x) (List.length y) then Returned (zip_mul x y)
  else
    match x, y with
    | [a], _ => Returned (map (mul a) y)
    | _, [b] => Returned (map (fun a => mul a b) x)
    | _, _ => Raised (Foreign (ValueError "operands could not be broadcast together"))
    end.

Section WithSum.

Variable str_float : float64 -> string.
Variable np_sum : list float64 -> float64.

Definition expected_value (values probabilities : list float64) : outcome float64 :=
  if negb (isclose_one (np_sum probabilities)) then
    Raised (Anvaya (new_InvalidInputError
                      ("Probabilities must sum to 1, got "
                         ++ str_float (np_sum probabilities))
                      (Some "probabilities") None None))
  else
    match multiply values probabilities with
    | Returned products => Returned (np_sum products)
    | Raised e => Raised e
    end.

Definition variance_discrete (values probabilities : list float64) : outcome float64 :=
  match expected_value values probabilities with
  | Raised e => Raised e
  | Returned mu =>
      let squares := map (fun v => mul (sub v mu) (sub v mu)) values in
      match multiply probabilities squares with
      | Returned products => Returned (np_sum products)
      | Raised e => Raised e
      end
  end.

End WithSum.

End Discrete.

(** ** [number_theory.py]: base conversion

    [to_hex], [to_bin], [to_oct], [from_base] and [convert_base] rest on
    the built-ins [hex], [bin], [oct], [str] and [int(s, base)], written
    out here for integers of any size and for ASCII text, with the
    error texts of CPython 3.11.  [limit] is the interpreter's cap on
    the digits of conversions between text and integers in bases that
    are not powers of two (4300 unless reconfigured; 0 switches it off;
    the interpreter accepts no other value below 640). *)

Module NumberTheory.

Definition text : Type := list ascii.

(** The digit characters [0-9a-z]. *)
Definition digit_char (d : Z) : ascii :=
  ascii_of_nat (Z.to_nat (if (d <? 10)%Z then 48 + d else 87 + d)%Z).

(** The value of a digit character, in either case. *)
Definition digit_value (c : ascii) : option Z :=
  let k := Z.of_nat (nat_of_ascii c) in
  if (48 <=? k)%Z && (k <=? 57)%Z then Some (k - 48)%Z
  else if (97 <=? k)%Z && (k <=? 122)%Z then Some (k - 87)%Z
  else if (65 <=? k)%Z && (k <=? 90)%Z then Some (k - 55)%Z
  else None.

(** The digits of [n] in [base], most significant first. *)
Fixpoint digits (base : Z) (fuel : nat) (n : Z) : list Z :=
  match fuel with
  | O => []
  | S f => if (n =? 0)%Z then [] else digits base f (n / base)%Z ++ [(n mod base)%Z]
  end.

Definition magnitude (base n : Z) : text :=
  if (n =? 0)%Z then ["0"%char]
  else map digit_char (digits base (S (Z.to_nat (Z.log2 n))) n).

(** [hex(n)], [bin(n)], [oct(n)]: sign, prefix, digits. *)
Definition prefixed (letter : ascii) (base n : Z) : string :=
  string_of_list_ascii
    ((if (n <? 0)%Z then ["-"%char] else [])
       ++ ["0"%char; letter] ++ magnitude base (Z.abs n)).

Definition to_hex (n : Z) : string := prefixed "x" 16 n.
Definition to_bin (n : Z) : string := prefixed "b" 2 n.
Definition to_oct (n : Z) : string := prefixed "o" 8 n.

(** C's [isspace] on ASCII. *)
Definition is_space (c : ascii) : bool :=
  let k := nat_of_ascii c in
  Nat.eqb k 32 || (Nat.leb 9 k && Nat.leb k 13).

Fixpoint skip_spaces (l : text) : text :=
  match l with
  | c :: rest => if is_space c then skip_spaces rest else l
  | [] => []
  end.

Definition is_letter (lower upper c : ascii) : bool :=
  Ascii.eqb c lower || Ascii.eqb c upper.

(** The digit loop of [int]: digits below [base], single underscores
    between them.  [None] is a misplaced underscore; otherwise the value
    read, the number of digits, and the text left over. *)
Fixpoint scan (base : Z) (l : text) (after_underscore : bool) (acc : Z) (count : nat)
  : option (Z * nat * text) :=
  match l with
  | [] => if after_underscore then None else Some (acc, count, [])
  | c :: rest =>
      if Ascii.eqb c "_" then
        if after_underscore then None else scan base rest true acc count
      else
        match digit_value c with
        | Some d =>
            if (d <? base)%Z then scan base rest false (acc * base + d)%Z (S count)
            else if after_underscore then None else Some (acc, count, l)
        | None => if after_underscore then None else Some (acc, count, l)
        end
  end.

(** The value of a digit list, most significant digit first, continuing
    from [acc]. *)
Definition value_of (base : Z) (ds : list Z) (acc : Z) : Z :=
  fold_left (fun a d => (a * base + d)%Z) ds acc.

Definition is_power_of_two (base : Z) : bool :=
  (base =? 2)%Z || (base =? 4)%Z || (base =? 8)%Z || (base =? 16)%Z || (base =? 32)%Z.

(** [sys.int_info.str_digits_check_threshold]: conversions of at most
    this many digits are never checked against the limit. *)
Definition threshold : Z := 640.

Section WithInterpreter.

(** [sys.get_int_max_str_digits()]: 0 switches the limit off. *)
Variable limit : Z.
(** Python's [repr] of a string, used in the error message of [int]. *)
Variable repr_str : string -> string.

(** The message shows the base the caller gave and at most 200
    characters of the literal's [repr]. *)
Definition invalid_literal (s : string) (base : Z) : exn :=
  Foreign (ValueError ("invalid literal for int() with base " ++ str_Z base
                         ++ ": " ++ substring 0 200 (repr_str s))).

Definition int_over_limit (count : nat) : exn :=
  Foreign (ValueError ("Exceeds the limit (" ++ str_Z limit
                         ++ " digits) for integer string conversion: value has "
                         ++ str_nat count
                         ++ " digits; use sys.set_int_max_str_digits() to increase the limit")).

Definition str_over_limit : exn :=
  Foreign (ValueError ("Exceeds the limit (" ++ str_Z limit
                         ++ " digits) for integer string conversion; "
                         ++ "use sys.set_int_max_str_digits() to increase the limit")).

Definition over_limit (count : Z) : bool :=
  (threshold <? count)%Z && (0 <? limit)%Z && (limit <? count)%Z.

(** [int(s, base)]. *)
Definition py_int (s : string) (base : Z) : outcome Z :=
  if (negb (base =? 0)%Z && (base <? 2)%Z) || (36 <? base)%Z then
    Raised (Foreign (ValueError "int() base must be >= 2 and <= 36, or 0"))
  else
    let l0 := skip_spaces (list_ascii_of_string s) in
    let negative := match l0 with
                    | c :: _ => Ascii.eqb c "-"
                    | [] => false
                    end in
    let l1 := match l0 with
              | c :: rest => if Ascii.eqb c "+" || Ascii.eqb c "-" then rest else l0
              | [] => l0
              end in
    let detected :=
      if (base =? 0)%Z then
        match l1 with
        | z :: rest =>
            if Ascii.eqb z "0" then
              match rest with
              | c :: _ =>
                  if is_letter "x" "X" c then (16, false)%Z
                  else if is_letter "o" "O" c then (8, false)%Z
                  else if is_letter "b" "B" c then (2, false)%Z
                  else (10, true)%Z
              | [] => (10, true)%Z
              end
            else (10, false)%Z
        | [] => (10, false)%Z
        end
      else (base, false) in
    let b := fst detected in
    let zero_only := snd detected in
    let l2 :=
      match l1 with
      | z :: c :: rest =>
          if Ascii.eqb z "0"
             && (((b =? 16)%Z && is_letter "x" "X" c)
                 || ((b =? 8)%Z && is_letter "o" "O" c)
                 || ((b =? 2)%Z && is_letter "b" "B" c))
          then match rest with
               | u :: rest' => if Ascii.eqb u "_" then rest' else rest
               | [] => rest
               end
          else l1
      | _ => l1
      end in
    match l2 with
    | u :: _ =>
        if Ascii.eqb u "_" then Raised (invalid_literal s base)
        else
          match scan b l2 false 0%Z 0%nat with
          | None => Raised (invalid_literal s base)
          | Some (v, count, rest) =>
              if negb (is_power_of_two b) && over_limit (Z.of_nat count)
              then Raised (int_over_limit count)
              else if zero_only && negb (v =? 0)%Z then Raised (invalid_literal s base)
              else if Nat.eqb count 0 then Raised (invalid_literal s base)
              else
                match skip_spaces rest with
                | [] => Returned (if negative then (- v)%Z else v)
                | _ :: _ => Raised (invalid_literal s base)
                end
          end
    | [] => Raised (invalid_literal s base)
    end.

(** [str(n)], also what an f-string makes of an integer. *)
Definition py_str (n : Z) : outcome string :=
  if over_limit (Z.of_nat (String.length (str_Z (Z.abs n)))) then Raised str_over_limit
  else Returned (str_Z n).

Definition from_base (s : string) (base : Z) : outcome Z := py_int s base.

Definition convert_base (val : string) (from_base to_base : Z) : outcome string :=
  match py_int val from_base with
  | Raised e => Raised e
  | Returned decimal_val =>
      if (to_base =? 10)%Z then py_str decimal_val
      else if (to_base =? 2)%Z then Returned (to_bin decimal_val)
      else if (to_base =? 8)%Z then Returned (to_oct decimal_val)
      else if (to_base =? 16)%Z then Returned (to_hex decimal_val)
      else
        match py_str to_base with
        | Raised e => Raised e
        | Returned shown =>
            Raised (Foreign (ValueError
                               ("Target base " ++ shown
                                  ++ " not directly supported in this simple helper.")))
        end
  end.

End WithInterpreter.

End NumberTheory.

Import Probability.

(** The exception [_validate_probability] raises for [value] under the
    name [name], and the one [bayes_theorem] raises for a zero [p_b]. *)
Definition rejected (str : float64 -> string) (value : float64) (name : string)
  : error :=
  Library (InvalidInputError
             (("Invalid " ++ name ++ "=" ++ str value
                 ++ ": must be between 0 and 1")%string)
             (Some name) (Some (str value)) (Some "must be between 0 and 1")).

Definition p_b_is_zero : error :=
  ZeroDivisionError "p_b cannot be zero (event B has zero probability)".

(** A float that is not NaN and not below zero. *)
Definition nonnegative (x : float64) : Prop :=
  match x with
  | S754_zero _ | S754_finite false _ _ | S754_infinity false => True
  | _ => False
  end.

Ltac case_unit v :=
  unfold _validate_probability;
  destruct (in_unit_interval v) eqn:?; simpl.

Ltac bayes_cases a b c :=
  unfold bayes_theorem, _validate_probability, truediv, and_then;
  destruct (in_unit_interval a) eqn:?; simpl;
  destruct (in_unit_interval b) eqn:?; simpl;
  destruct (in_unit_interval c) eqn:?; simpl;
  destruct (eqb c zero) eqn:?; simpl.

(** ** Basic facts about coercion and the monad *)

Lemma shape_asarray_float64 (a : ndarray) : shape (asarray_float64 a) = shape a.
Proof.
  unfold asarray_float64. destruct (dtype_eqb (dtype_of a) float64_t); reflexivity.
Qed.

Lemma is_square_asarray_float64 (a : ndarray) :
  is_square (asarray_float64 a) = is_square a.
Proof.
  unfold is_square. rewrite shape_asarray_float64. reflexivity.
Qed.

Lemma dtype_asarray_float64 (a : ndarray) : dtype_of (asarray_float64 a) = float64_t.
Proof.
  unfold asarray_float64. destruct (dtype_of a) eqn:E; simpl; auto.
Qed.

Lemma asarray_float64_matrix (a : ndarray) :
  dtype_of a = float64_t -> asarray_float64 a = a.
Proof.
  intros H. unfold asarray_float64. rewrite H. reflexivity.
Qed.

Lemma hard_threshold_value : hard_threshold = of_Z 4503599627370496.
Proof. vm_compute. reflexivity. Qed.

Lemma hard_threshold_about_4_5e15 :
  ltb (of_Z 4500000000000000) hard_threshold = true
  /\ ltb hard_threshold (of_Z 4510000000000000) = true.
Proof. split; vm_compute; reflexivity. Qed.

(** ** [inverse]: the hard singularity gate *)

(** C1.  For a square matrix [A] whose condition number, as the backend
    computes it, exceeds [1 / eps] (which is 2^52, about 4.5e15),
    [inverse(A, check_singular=True)] raises [SingularMatrixError]; the
    exception's [condition_number] attribute is that very number; and the
    only backend call made is the condition-number call: no inversion
    has been attempted when the exception leaves the function. *)
Theorem inverse_refuses_singular :
  forall (K : Backend) (A : ndarray) (c : float64) (w : world),
    is_square A = true ->
    np_linalg_cond K (asarray_float64 A) = inr c ->
    gtb c hard_threshold = true ->
    inverse K A true w =
      (Raised (Anvaya (SingularMatrixError
                         ("Matrix is singular or nearly singular"
                            ++ " (condition number: " ++ format_2e K c ++ ")")
                         (Some c))),
       logged w [call_cond (asarray_float64 A)])
    /\ condition_number_of
         (Anvaya (new_SingularMatrixError (format_2e K)
                    "Matrix is singular or nearly singular" (Some c))) = Some c
    /\ filter is_inversion (calls (snd (inverse K A true w)))
       = filter is_inversion (calls w)
    /\ hard_threshold = of_Z (2 ^ 52).
Proof.
  intros K A c w Hsq Hcond Hgt.
  assert (Hrun : inverse K A true w =
      (Raised (Anvaya (SingularMatrixError
                         ("Matrix is singular or nearly singular"
                            ++ " (condition number: " ++ format_2e K c ++ ")")
                         (Some c))),
       logged w [call_cond (asarray_float64 A)])).
  { unfold inverse. rewrite is_square_asarray_float64, Hsq. simpl.
    unfold_monad. rewrite Hcond, Hgt. reflexivity. }
  split; [exact Hrun|].
  split; [reflexivity|].
  split.
  - rewrite Hrun. simpl. rewrite filter_app. simpl. apply app_nil_r.
  - vm_compute. reflexivity.
Qed.

Lemma inverse_refuses_singular_witness :
  result_of (inverse Ref.numpy Examples.singular2 true)
    = Raised (Anvaya (SingularMatrixError
                        "Matrix is singular or nearly singular (condition number: inf)"
                        (Some inf)))
  /\ calls_of (inverse Ref.numpy Examples.singular2 true)
     = [call_cond Examples.singular2].
Proof.
  destruct (inverse_refuses_singular Ref.numpy Examples.singular2 inf fresh)
    as [Hrun _]; try (vm_compute; reflexivity).
  unfold result_of, calls_of. rewrite Hrun. split; reflexivity.
Defined.

(** ** [determinant]: the advisory gate *)

(** What [determinant] does on a square matrix once the backend has
    returned the determinant [d]. *)
Lemma determinant_square_run (K : Backend) (A : ndarray) (d : float64)
      (check_numerical : bool) (w : world) :
  is_square A = true ->
  np_linalg_det K (asarray_float64 A) = inr d ->
  determinant K A check_numerical w =
    let A' := asarray_float64 A in
    if check_numerical && (10 <? hd 0 (shape A))%nat then
      match np_linalg_cond K A' with
      | inr c =>
          (Returned d,
           mk_world (calls w ++ [call_det A'; call_cond A'])
                    (if gtb c advisory_threshold
                     then warnings w ++ [advisory K c] else warnings w))
      | inl e => (Raised (Foreign e), logged w [call_det A'; call_cond A'])
      end
    else (Returned d, logged w [call_det A']).
Proof.
  intros Hsq Hdet. unfold determinant.
  rewrite is_square_asarray_float64, Hsq, shape_asarray_float64. simpl.
  unfold_monad. rewrite Hdet. simpl.
  destruct (check_numerical && (10 <? hd 0 (shape A))%nat); simpl; [|reflexivity].
  destruct (np_linalg_cond K (asarray_float64 A)) as [e|c]; simpl.
  - rewrite <- app_assoc. reflexivity.
  - destruct (gtb c advisory_threshold); simpl; rewrite <- app_assoc; reflexivity.
Qed.

(** C4 (as amended).  On a square [n] by [n] matrix whose determinant the
    backend returns, [determinant(A, check_numerical=True)] emits a warning
    exactly when [n > 10] and the backend's condition number is greater
    than [1e10], the float [10^10]; the warning is the single
    [RuntimeWarning] advisory and the determinant is returned all the
    same; whatever value the condition number has, the call returns the
    determinant; for [n <= 10] no warning is emitted and the condition
    number is not even computed.  No verdict on the conditioning is ever
    turned into an exception; but the condition number is computed
    outside any [try], so the call does raise when that routine raises,
    and then with the routine's own exception. *)
Theorem determinant_advisory_iff :
  forall (K : Backend) (A : ndarray) (d : float64),
    is_square A = true ->
    np_linalg_det K (asarray_float64 A) = inr d ->
    (warnings_of (determinant K A true) <> [] <->
       (10 < hd 0 (shape A))%nat /\
       exists c, np_linalg_cond K (asarray_float64 A) = inr c
                 /\ gtb c (of_Z (10 ^ 10)) = true)
    /\ (forall c, (10 < hd 0 (shape A))%nat ->
          np_linalg_cond K (asarray_float64 A) = inr c ->
          gtb c (of_Z (10 ^ 10)) = true ->
          warnings_of (determinant K A true) = [advisory K c]
          /\ result_of (determinant K A true) = Returned d)
    /\ (forall c, np_linalg_cond K (asarray_float64 A) = inr c ->
          result_of (determinant K A true) = Returned d)
    /\ ((hd 0 (shape A) <= 10)%nat ->
          warnings_of (determinant K A true) = []
          /\ result_of (determinant K A true) = Returned d
          /\ filter is_cond (calls_of (determinant K A true)) = [])
    /\ (forall e, result_of (determinant K A true) = Raised e ->
          (10 < hd 0 (shape A))%nat
          /\ exists e', np_linalg_cond K (asarray_float64 A) = inl e'
                        /\ e = Foreign e').
Proof.
  intros K A d Hsq Hdet.
  change (of_Z (10 ^ 10)) with advisory_threshold.
  unfold warnings_of, result_of, calls_of.
  rewrite (determinant_square_run K A d true fresh Hsq Hdet). cbv zeta. simpl andb.
  destruct (10 <? hd 0 (shape A))%nat eqn:Hn.
  - apply Nat.ltb_lt in Hn.
    destruct (np_linalg_cond K (asarray_float64 A)) as [e|c0] eqn:Hc; simpl.
    + split; [split|split; [|split; [|split]]].
      * intros H. exfalso. apply H. reflexivity.
      * intros [_ [c [Hc' _]]]. discriminate.
      * intros c _ Hc'. discriminate.
      * intros c Hc'. discriminate.
      * intros Hle. lia.
      * intros e0 He. injection He as <-. split; [exact Hn|]. exists e.
        split; reflexivity.
    + destruct (gtb c0 advisory_threshold) eqn:Hg; simpl.
      * split; [split|split; [|split; [|split]]].
        -- intros _. split; [exact Hn|]. exists c0. split; [reflexivity|exact Hg].
        -- intros _. discriminate.
        -- intros c _ Hc' _. injection Hc' as <-. split; reflexivity.
        -- intros c _. reflexivity.
        -- intros Hle. lia.
        -- intros e0 He. discriminate.
      * split; [split|split; [|split; [|split]]].
        -- intros H. exfalso. apply H. reflexivity.
        -- intros [_ [c [Hc' Hg']]]. injection Hc' as <-. congruence.
        -- intros c _ Hc' Hg'. injection Hc' as <-. congruence.
        -- intros c _. reflexivity.
        -- intros Hle. lia.
        -- intros e0 He. discriminate.
  - apply Nat.ltb_ge in Hn. simpl.
    split; [split|split; [|split; [|split]]].
    + intros H. exfalso. apply H. reflexivity.
    + intros [Hlt _]. lia.
    + intros c Hlt. lia.
    + intros c _. reflexivity.
    + intros _. repeat split; reflexivity.
    + intros e0 He. discriminate.
Qed.

(** The threshold from both sides, on 11 by 11 diagonal matrices: a
    condition number of exactly [1e10] passes in silence, the next
    integer draws the advisory, and so does the infinite condition
    number of a singular matrix, whose determinant 0 is returned. *)
Lemma determinant_advisory_iff_witness :
  (warnings_of (determinant Ref.numpy Examples.above_threshold11 true)
     = [RuntimeWarning ("Matrix has high condition number (1.00e+10). "
                          ++ "Determinant may be numerically unreliable.")]
   /\ result_of (determinant Ref.numpy Examples.above_threshold11 true)
      = of_np (np_linalg_det Ref.numpy Examples.above_threshold11))
  /\ warnings_of (determinant Ref.numpy Examples.at_threshold11 true) = []
  /\ (warnings_of (determinant Ref.numpy Examples.singular11 true)
        = [RuntimeWarning ("Matrix has high condition number (inf). "
                             ++ "Determinant may be numerically unreliable.")]
      /\ result_of (determinant Ref.numpy Examples.singular11 true) = Returned zero).
Proof.
  split; [|split].
  - destruct (Ref.det Examples.above_threshold11) as [e|d] eqn:Hd;
      [vm_compute in Hd; discriminate|].
    destruct (determinant_advisory_iff Ref.numpy Examples.above_threshold11 d)
      as [_ [Hwarn _]]; [reflexivity|exact Hd|].
    destruct (Hwarn (of_Z (10 ^ 10 + 1))) as [Hw Hr];
      [vm_compute; lia|vm_compute; reflexivity|vm_compute; reflexivity|].
    split; [exact Hw|]. rewrite Hr.
    change (np_linalg_det Ref.numpy Examples.above_threshold11)
      with (Ref.det Examples.above_threshold11).
    rewrite Hd. reflexivity.
  - destruct (Ref.det Examples.at_threshold11) as [e|d] eqn:Hd;
      [vm_compute in Hd; discriminate|].
    destruct (determinant_advisory_iff Ref.numpy Examples.at_threshold11 d)
      as [[Hiff _] _]; [reflexivity|exact Hd|].
    destruct (warnings_of (determinant Ref.numpy Examples.at_threshold11 true))
      as [|x l]; [reflexivity|].
    destruct Hiff as [_ [c [Hc Hg]]]; [discriminate|].
    vm_compute in Hc. injection Hc as <-. vm_compute in Hg. discriminate.
  - destruct (determinant_advisory_iff Ref.numpy Examples.singular11 zero)
      as [_ [Hwarn _]]; [reflexivity|vm_compute; reflexivity|].
    apply (Hwarn inf); [vm_compute; lia|vm_compute; reflexivity|reflexivity].
Defined.

(** C4 as stated fails: the check itself can make [determinant] fail.
    On the 11 by 11 matrix of NaNs the determinant has been computed
    when the condition-number routine raises [LinAlgError]; that
    exception leaves the function, and no advisory has been emitted. *)
Lemma determinant_check_counterexample :
  (10 < hd 0%nat (shape Examples.nan11))%nat
  /\ Ref.det Examples.nan11 = inr nan
  /\ raises "LinAlgError" (result_of (determinant Ref.numpy Examples.nan11 true)) = true
  /\ calls_of (determinant Ref.numpy Examples.nan11 true)
     = [call_det Examples.nan11; call_cond Examples.nan11]
  /\ warnings_of (determinant Ref.numpy Examples.nan11 true) = [].
Proof. split; [vm_compute; lia|]. repeat split; vm_compute; reflexivity. Qed.

(** ** The switches and the result *)

Lemma inverse_square_run (K : Backend) (A : ndarray) (check_singular : bool)
      (w : world) :
  is_square A = true ->
  inverse K A check_singular w =
    let A' := asarray_float64 A in
    let invert (w0 : world) : outcome ndarray * world :=
      match np_linalg_inv K A' with
      | inr R => (Returned R, logged w0 [call_inv A'])
      | inl (LinAlgError m) =>
          (Raised (Anvaya (SingularMatrixError m None)), logged w0 [call_inv A'])
      | inl e => (Raised (Foreign e), logged w0 [call_inv A'])
      end in
    if check_singular then
      match np_linalg_cond K A' with
      | inr c =>
          if gtb c hard_threshold then
            (Raised (Anvaya (new_SingularMatrixError (format_2e K)
                               "Matrix is singular or nearly singular" (Some c))),
             logged w [call_cond A'])
          else invert (logged w [call_cond A'])
      | inl e => (Raised (Foreign e), logged w [call_cond A'])
      end
    else invert w.
Proof.
  intros Hsq. unfold inverse. rewrite is_square_asarray_float64, Hsq. simpl.
  unfold_monad.
  destruct check_singular; simpl.
  - destruct (np_linalg_cond K (asarray_float64 A)) as [e|c]; simpl; [reflexivity|].
    destruct (gtb c hard_threshold); simpl; [reflexivity|].
    destruct (np_linalg_inv K (asarray_float64 A)) as [[m|m|m|m|m]|R]; reflexivity.
  - destruct (np_linalg_inv K (asarray_float64 A)) as [[m|m|m|m|m]|R]; reflexivity.
Qed.

(** C9 (as amended).  On a square matrix, a switched-on check that
    lets the call return leaves the value alone.  Whenever
    [determinant(A, check_numerical=True)] returns, it returns what
    [determinant(A, check_numerical=False)] returns; the two calls have
    the same outcome as soon as the matrix is at most 10 by 10 or the
    backend's condition number is available, warning or no warning.
    Whenever [inverse(A, check_singular=True)] returns, it returns what
    [inverse(A, check_singular=False)] returns.  But on a matrix larger
    than 10 by 10 the condition number is computed outside any [try]:
    when that routine raises, the checked [determinant] raises its
    exception where the unchecked call returns the determinant. *)
Theorem switches_keep_the_result :
  forall (K : Backend) (A : ndarray) (w : world),
    is_square A = true ->
    (forall r, fst (determinant K A true w) = Returned r ->
               fst (determinant K A false w) = Returned r)
    /\ ((hd 0 (shape A) <= 10)%nat
        \/ (exists c, np_linalg_cond K (asarray_float64 A) = inr c) ->
        fst (determinant K A true w) = fst (determinant K A false w))
    /\ (forall R, fst (inverse K A true w) = Returned R ->
                  fst (inverse K A false w) = Returned R)
    /\ (forall d e, (10 < hd 0 (shape A))%nat ->
          np_linalg_det K (asarray_float64 A) = inr d ->
          np_linalg_cond K (asarray_float64 A) = inl e ->
          fst (determinant K A true w) = Raised (Foreign e)
          /\ fst (determinant K A false w) = Returned d).
Proof.
  intros K A w Hsq.
  split; [|split; [|split]].
  - intros r. unfold determinant.
    rewrite is_square_asarray_float64, Hsq, shape_asarray_float64. simpl.
    unfold_monad.
    destruct (np_linalg_det K (asarray_float64 A)) as [e|d]; simpl; [discriminate|].
    destruct (10 <? hd 0 (shape A))%nat; simpl; [|auto].
    destruct (np_linalg_cond K (asarray_float64 A)) as [e|c]; simpl; [discriminate|].
    destruct (gtb c advisory_threshold); simpl; auto.
  - intros Hok. unfold determinant.
    rewrite is_square_asarray_float64, Hsq, shape_asarray_float64. simpl.
    unfold_monad.
    destruct (np_linalg_det K (asarray_float64 A)) as [e|d]; simpl; [reflexivity|].
    destruct (10 <? hd 0 (shape A))%nat eqn:Hn; simpl; [|reflexivity].
    destruct Hok as [Hle|[c Hc]].
    + apply Nat.ltb_lt in Hn. lia.
    + rewrite Hc. simpl. destruct (gtb c advisory_threshold); reflexivity.
  - intros R.
    rewrite (inverse_square_run K A true w Hsq), (inverse_square_run K A false w Hsq).
    cbv zeta.
    destruct (np_linalg_cond K (asarray_float64 A)) as [e|c]; simpl; [discriminate|].
    destruct (gtb c hard_threshold).
    + unfold new_SingularMatrixError. simpl. discriminate.
    + destruct (np_linalg_inv K (asarray_float64 A)) as [[m|m|m|m|m]|R0]; simpl;
        auto.
  - intros d e Hn Hd He.
    rewrite (determinant_square_run K A d true w Hsq Hd),
      (determinant_square_run K A d false w Hsq Hd).
    cbv zeta. apply Nat.ltb_lt in Hn. rewrite Hn, He. split; reflexivity.
Qed.

(** On the singular 11 by 11 diagonal matrix the advisory fires and both
    calls return the determinant 0; the inverse of [[2, 0], [0, 4]] is
    the same with and without the check. *)
Lemma switches_keep_the_result_witness :
  (warnings_of (determinant Ref.numpy Examples.singular11 true) <> []
   /\ result_of (determinant Ref.numpy Examples.singular11 true) = Returned zero
   /\ result_of (determinant Ref.numpy Examples.singular11 false) = Returned zero)
  /\ (result_of (inverse Ref.numpy Examples.regular2 true)
        = Returned (mk_ndarray float64_t [2; 2]%nat
                      [F (of_scaled 1 (-1)); F zero; F zero; F (of_scaled 1 (-2))])
      /\ result_of (inverse Ref.numpy Examples.regular2 false)
        = Returned (mk_ndarray float64_t [2; 2]%nat
                      [F (of_scaled 1 (-1)); F zero; F zero; F (of_scaled 1 (-2))])).
Proof.
  destruct (switches_keep_the_result Ref.numpy Examples.singular11 fresh)
    as [Hdet _]; [vm_compute; reflexivity|].
  destruct (switches_keep_the_result Ref.numpy Examples.regular2 fresh)
    as [_ [_ [Hinv _]]]; [vm_compute; reflexivity|].
  split; [split; [|split]|split].
  - vm_compute. discriminate.
  - vm_compute. reflexivity.
  - apply Hdet. vm_compute. reflexivity.
  - vm_compute. reflexivity.
  - apply Hinv. vm_compute. reflexivity.
Defined.

(** C9 as stated fails: on the 11 by 11 matrix of NaNs the condition
    number cannot be computed (the singular value routine fails), so the
    checked call raises [LinAlgError], while the unchecked call returns
    the determinant, a NaN. *)
Lemma switches_counterexample :
  is_square Examples.nan11 = true
  /\ result_of (determinant Ref.numpy Examples.nan11 true)
     = Raised (Foreign (LinAlgError "SVD did not converge"))
  /\ result_of (determinant Ref.numpy Examples.nan11 false) = Returned nan.
Proof. repeat split; vm_compute; reflexivity. Qed.

(** ** Operations that delegate without validating *)

Lemma foreign_is_not_anvaya (e : np_error) (cls : string) :
  In cls ["SingularMatrixError"; "ConvergenceError"; "DimensionMismatchError";
          "InvalidInputError"; "InvalidShapeError"] ->
  String.eqb (class_name (Foreign e)) cls = false.
Proof.
  intros Hin. simpl in Hin.
  destruct e; repeat (destruct Hin as [<-|Hin]; [reflexivity|]); contradiction.
Qed.

(** C2 (as amended).  [solve_linear_system] validates nothing itself: its
    first and only step is the backend's [solve] on the coerced pair.  A
    [LinAlgError] from the backend is re-raised as [SingularMatrixError]
    with the message prefixed by "Cannot solve system: " and no condition
    number; a result is returned as it is.  On no input and with no
    backend does the function raise [DimensionMismatchError]. *)
Theorem solve_linear_system_delegates :
  forall (K : Backend) (A b : ndarray) (w : world),
    solve_linear_system K A b w =
      (match np_linalg_solve K (asarray_float64 A) (asarray_float64 b) with
       | inr x => Returned x
       | inl (LinAlgError m) =>
           Raised (Anvaya (SingularMatrixError ("Cannot solve system: " ++ m) None))
       | inl e => Raised (Foreign e)
       end,
       logged w [call_solve (asarray_float64 A) (asarray_float64 b)])
    /\ raises "DimensionMismatchError" (fst (solve_linear_system K A b w)) = false.
Proof.
  intros K A b w.
  assert (Hrun : solve_linear_system K A b w =
      (match np_linalg_solve K (asarray_float64 A) (asarray_float64 b) with
       | inr x => Returned x
       | inl (LinAlgError m) =>
           Raised (Anvaya (SingularMatrixError ("Cannot solve system: " ++ m) None))
       | inl e => Raised (Foreign e)
       end,
       logged w [call_solve (asarray_float64 A) (asarray_float64 b)])).
  { unfold solve_linear_system. unfold_monad.
    destruct (np_linalg_solve K (asarray_float64 A) (asarray_float64 b))
      as [[m|m|m|m|m]|x]; reflexivity. }
  split; [exact Hrun|].
  rewrite Hrun. simpl.
  destruct (np_linalg_solve K (asarray_float64 A) (asarray_float64 b))
    as [[m|m|m|m|m]|x]; reflexivity.
Qed.

(** C2 as stated fails: on a 2 by 3 coefficient matrix the reference
    backend reports NumPy's squareness failure, which comes back as
    [SingularMatrixError], after the backend's [solve] has been entered;
    a right-hand side of the wrong length is not a
    [DimensionMismatchError] either. *)
Lemma solve_linear_system_counterexample :
  is_square Examples.wide23 = false
  /\ result_of (solve_linear_system Ref.numpy Examples.wide23 (Examples.vector [1; 2]%Z))
     = Raised (Anvaya (SingularMatrixError
                         ("Cannot solve system: "
                            ++ "Last 2 dimensions of the array must be square")
                         None))
  /\ calls_of (solve_linear_system Ref.numpy Examples.wide23 (Examples.vector [1; 2]%Z))
     = [call_solve Examples.wide23 (Examples.vector [1; 2]%Z)]
  /\ raises "DimensionMismatchError"
       (result_of (solve_linear_system Ref.numpy Examples.regular2
                     (Examples.vector [1; 2; 3]%Z))) = false.
Proof. repeat split; vm_compute; reflexivity. Qed.

(** C3 (as amended).  [matrix(data)] is one call of the array
    constructor with [dtype=np.float64] and nothing else: what the
    constructor returns is returned, what it raises propagates as the
    NumPy-side exception it is, so [InvalidShapeError] is never raised;
    and since float64 is the type requested, a constructor that honours
    the request yields float64 storage whatever the input's numeric
    type. *)
Theorem matrix_delegates :
  forall (K : Backend) (data : pyobj) (w : world),
    matrix K data w =
      (of_np (np_array K data float64_t), logged w [call_array data float64_t])
    /\ raises "InvalidShapeError" (fst (matrix K data w)) = false
    /\ ((forall a, np_array K data float64_t = inr a -> dtype_of a = float64_t) ->
        forall a, fst (matrix K data w) = Returned a -> dtype_of a = float64_t).
Proof.
  intros K data w.
  assert (Hrun : matrix K data w =
      (of_np (np_array K data float64_t), logged w [call_array data float64_t])).
  { unfold matrix. unfold_monad. destruct (np_array K data float64_t); reflexivity. }
  split; [exact Hrun|]. rewrite Hrun. simpl. split.
  - destruct (np_array K data float64_t) as [e|a]; simpl; [|reflexivity].
    apply foreign_is_not_anvaya. simpl. tauto.
  - intros Hlaw a. destruct (np_array K data float64_t) as [e|a0]; simpl.
    + discriminate.
    + intros Heq. injection Heq as <-. apply Hlaw. reflexivity.
Qed.

Lemma Ref_array_float64 (data : pyobj) (a : ndarray) :
  Ref.array data float64_t = inr a -> dtype_of a = float64_t.
Proof.
  unfold Ref.array. destruct (Ref.build data) as [e|[s d]]; [discriminate|].
  intros H. injection H as <-. reflexivity.
Qed.

Lemma matrix_delegates_witness :
  result_of (matrix Ref.numpy Examples.ints22) = Returned (Examples.dense 2 2 [1; 2; 3; 4]%Z)
  /\ dtype_of (Examples.dense 2 2 [1; 2; 3; 4]%Z) = float64_t.
Proof.
  destruct (matrix_delegates Ref.numpy Examples.ints22 fresh) as [Hrun [_ Hdtype]].
  assert (H : result_of (matrix Ref.numpy Examples.ints22)
              = Returned (Examples.dense 2 2 [1; 2; 3; 4]%Z)).
  { unfold result_of. rewrite Hrun. vm_compute. reflexivity. }
  split; [exact H|].
  apply Hdtype; [|exact H].
  intros a. apply Ref_array_float64.
Defined.

(** C3 as stated fails: rows of unequal length raise NumPy's
    [ValueError], and a non-numeric [None] element raises nothing at all
    (it is stored as NaN). *)
Lemma matrix_counterexample :
  raises "ValueError" (result_of (matrix Ref.numpy Examples.ragged)) = true
  /\ raises "InvalidShapeError" (result_of (matrix Ref.numpy Examples.ragged)) = false
  /\ result_of (matrix Ref.numpy Examples.with_none)
     = Returned (mk_ndarray float64_t [1; 2]%nat [F one; F nan]).
Proof. repeat split; vm_compute; reflexivity. Qed.

(** ** [multiply]: the shape gate *)

(** C5 (as amended).  When the last dimension of [A] differs from the
    first dimension of [B], [multiply(A, B)] raises
    [DimensionMismatchError] before any product is attempted; the
    exception carries the two shapes in its message only, and its
    [expected] and [got] attributes are both [None]. *)
Theorem multiply_mismatch_message_only :
  forall (K : Backend) (A B : ndarray) (n m : nat) (w : world),
    shape_last (shape A) = Returned n ->
    shape_first (shape B) = Returned m ->
    n <> m ->
    multiply K A B w =
      (Raised (Anvaya (DimensionMismatchError
                         ("Cannot multiply matrices with shapes "
                            ++ repr_shape (shape A) ++ " and " ++ repr_shape (shape B))
                         None None)),
       w).
Proof.
  intros K A B n m w HA HB Hne.
  unfold multiply. unfold_monad. rewrite HA, HB.
  apply Nat.eqb_neq in Hne. rewrite Hne. reflexivity.
Qed.

Lemma multiply_mismatch_message_only_witness :
  multiply Ref.numpy Examples.wide23 Examples.tall42 fresh =
    (Raised (Anvaya (DimensionMismatchError
                       "Cannot multiply matrices with shapes (2, 3) and (4, 2)"
                       None None)),
     fresh).
Proof.
  apply (multiply_mismatch_message_only Ref.numpy Examples.wide23 Examples.tall42 3 4 fresh).
  - reflexivity.
  - reflexivity.
  - lia.
Defined.

(** C5 as stated fails on its own example: for shapes (2, 3) and (4, 2)
    the exception's [expected] and [got] are [None], not 3 and 4. *)
Lemma multiply_counterexample :
  result_of (multiply Ref.numpy Examples.wide23 Examples.tall42)
    = Raised (Anvaya (DimensionMismatchError
                        "Cannot multiply matrices with shapes (2, 3) and (4, 2)"
                        None None))
  /\ expected_of (Anvaya (DimensionMismatchError
                            "Cannot multiply matrices with shapes (2, 3) and (4, 2)"
                            None None)) = None
  /\ got_of (Anvaya (DimensionMismatchError
                       "Cannot multiply matrices with shapes (2, 3) and (4, 2)"
                       None None)) = None.
Proof. repeat split; vm_compute; reflexivity. Qed.

(** ** [is_positive_definite]: a total predicate *)

Lemma Ref_cholesky_rejects_nonsquare : cholesky_rejects_nonsquare Ref.numpy.
Proof.
  intros a r c Hs Hne. simpl. unfold Ref.cholesky, Ref.assert_square.
  rewrite Hs. apply Nat.eqb_neq in Hne. rewrite Hne. eexists. reflexivity.
Qed.

(** C6 (as amended).  [is_positive_definite(A)] returns [True] exactly
    when the backend's Cholesky factorisation of the coerced [A] returns
    a factor, and returns [False] whenever the backend raises
    [LinAlgError]; no [LinAlgError] ever leaves the function.  Since that
    is how NumPy reports a non-square argument, a non-square matrix is
    answered with [False], not with an exception. *)
Theorem is_positive_definite_absorbs_LinAlgError :
  forall (K : Backend) (A : ndarray) (w : world),
    is_positive_definite K A w =
      (match np_linalg_cholesky K (asarray_float64 A) with
       | inr _ => Returned true
       | inl (LinAlgError _) => Returned false
       | inl e => Raised (Foreign e)
       end,
       logged w [call_cholesky (asarray_float64 A)])
    /\ (fst (is_positive_definite K A w) = Returned true <->
        exists L, np_linalg_cholesky K (asarray_float64 A) = inr L)
    /\ raises "LinAlgError" (fst (is_positive_definite K A w)) = false
    /\ (cholesky_rejects_nonsquare K ->
        forall r c, shape A = [r; c] -> r <> c ->
                    fst (is_positive_definite K A w) = Returned false).
Proof.
  intros K A w.
  assert (Hrun : is_positive_definite K A w =
      (match np_linalg_cholesky K (asarray_float64 A) with
       | inr _ => Returned true
       | inl (LinAlgError _) => Returned false
       | inl e => Raised (Foreign e)
       end,
       logged w [call_cholesky (asarray_float64 A)])).
  { unfold is_positive_definite. unfold_monad.
    destruct (np_linalg_cholesky K (asarray_float64 A)) as [[m|m|m|m|m]|L];
      reflexivity. }
  split; [exact Hrun|]. rewrite Hrun. simpl.
  split; [|split].
  - destruct (np_linalg_cholesky K (asarray_float64 A)) as [e|L].
    + split.
      * destruct e; discriminate.
      * intros [L HL]. discriminate.
    + split; [intros _; exists L|intros _]; reflexivity.
  - destruct (np_linalg_cholesky K (asarray_float64 A)) as [[m|m|m|m|m]|L];
      reflexivity.
  - intros Hlaw r c Hs Hne.
    destruct (Hlaw (asarray_float64 A) r c) as [m Hm]; [|exact Hne|].
    + rewrite shape_asarray_float64. exact Hs.
    + rewrite Hm. reflexivity.
Qed.

Lemma is_positive_definite_absorbs_LinAlgError_witness :
  result_of (is_positive_definite Ref.numpy Examples.wide23) = Returned false
  /\ result_of (is_positive_definite Ref.numpy (Examples.dense 2 2 [4; 2; 2; 5]%Z))
     = Returned true
  /\ result_of (is_positive_definite Ref.numpy (Examples.dense 2 2 [1; 2; 2; 1]%Z))
     = Returned false.
Proof.
  destruct (is_positive_definite_absorbs_LinAlgError Ref.numpy Examples.wide23 fresh)
    as [_ [_ [_ Hrect]]].
  split; [|split].
  - apply (Hrect Ref_cholesky_rejects_nonsquare 2%nat 3%nat); [reflexivity|lia].
  - vm_compute. reflexivity.
  - vm_compute. reflexivity.
Defined.

(** C6 as stated fails: on a 2 by 3 matrix the predicate returns [False]
    and raises nothing. *)
Lemma is_positive_definite_counterexample :
  is_square Examples.wide23 = false
  /\ is_positive_definite Ref.numpy Examples.wide23 fresh
     = (Returned false, logged fresh [call_cholesky Examples.wide23]).
Proof. split; vm_compute; reflexivity. Qed.

(** ** [norm]: the default order *)

(** C8 (as amended).  A call of [norm] that leaves the order out is the
    call with order 2, for a vector and for a matrix alike: the backend's
    norm routine is called once, with [ord=2], and its answer or its
    exception is the outcome.  An order that is given, ['fro'] and [None]
    included, is handed over as it is; so the default never reaches the
    routine as ['fro'] or as [None], the two orders under which NumPy
    computes the Frobenius norm of a matrix. *)
Theorem norm_default_is_order_2 :
  forall (K : Backend) (v : ndarray) (w : world),
    norm K v None w = norm K v (Some (OrdInt 2)) w
    /\ norm K v None w =
         (of_np (np_linalg_norm K v (OrdInt 2)), logged w [call_norm v (OrdInt 2)])
    /\ (forall o, norm K v (Some o) w =
                    (of_np (np_linalg_norm K v o), logged w [call_norm v o]))
    /\ (forall u o, In (call_norm u o) (calls_of (norm K v None)) ->
                      u = v /\ o = OrdInt 2).
Proof.
  intros K v w.
  assert (Hrun : forall o w0, norm K v (Some o) w0 =
            (of_np (np_linalg_norm K v o), logged w0 [call_norm v o])).
  { intros o w0. unfold norm. unfold_monad.
    destruct (np_linalg_norm K v o); reflexivity. }
  split; [reflexivity|]. split; [apply (Hrun (OrdInt 2))|]. split; [intros o; apply Hrun|].
  intros u o. unfold calls_of.
  change (norm K v None fresh) with (norm K v (Some (OrdInt 2)) fresh).
  rewrite Hrun. simpl. intros [H|[]]. injection H as <- <-. split; reflexivity.
Qed.

(** C8 as stated fails: for the matrix [[3, 0], [0, 4]] the call without
    an order returns 4, the spectral norm; its Frobenius norm, which the
    orders ['fro'] and [None] give, is 5. *)
Lemma norm_counterexample :
  ndim Examples.diag34 = 2%nat
  /\ result_of (norm Ref.numpy Examples.diag34 None) = Returned (of_Z 4)
  /\ result_of (norm Ref.numpy Examples.diag34 (Some OrdFro)) = Returned (of_Z 5)
  /\ result_of (norm Ref.numpy Examples.diag34 (Some OrdNone)) = Returned (of_Z 5)
  /\ calls_of (norm Ref.numpy Examples.diag34 None)
     = [call_norm Examples.diag34 (OrdInt 2)].
Proof. repeat split; vm_compute; reflexivity. Qed.

(** ** Further properties of the validation layer *)

(** X2.  [determinant] and [inverse] reject an argument that is not a
    square two-dimensional array with [DimensionMismatchError] before
    any backend routine is called, whatever the switch; the exception
    names the offending shape in its message and leaves [expected] and
    [got] unset. *)
Theorem nonsquare_rejected_first :
  forall (K : Backend) (A : ndarray) (switch : bool) (w : world),
    is_square A = false ->
    determinant K A switch w =
      (Raised (Anvaya (DimensionMismatchError
                         ("Determinant requires square matrix, got shape "
                            ++ repr_shape (shape A)) None None)), w)
    /\ inverse K A switch w =
      (Raised (Anvaya (DimensionMismatchError
                         ("Inverse requires square matrix, got shape "
                            ++ repr_shape (shape A)) None None)), w).
Proof.
  intros K A switch w Hsq. unfold determinant, inverse.
  rewrite is_square_asarray_float64, Hsq, shape_asarray_float64. simpl.
  split; reflexivity.
Qed.

Lemma nonsquare_rejected_first_witness :
  result_of (determinant Ref.numpy Examples.wide23 true)
    = Raised (Anvaya (DimensionMismatchError
                        "Determinant requires square matrix, got shape (2, 3)"
                        None None))
  /\ calls_of (inverse Ref.numpy Examples.wide23 true) = [].
Proof.
  destruct (nonsquare_rejected_first Ref.numpy Examples.wide23 true fresh)
    as [Hdet Hinv]; [reflexivity|].
  unfold result_of, calls_of. rewrite Hdet, Hinv. split; reflexivity.
Defined.

(** X3.  When the singularity check is switched off, or has passed, a
    [LinAlgError] raised by the backend's inversion leaves [inverse] as a
    [SingularMatrixError] whose message is the backend's and whose
    [condition_number] is [None]. *)
Theorem inverse_translates_LinAlgError :
  forall (K : Backend) (A : ndarray) (m : string) (w : world),
    is_square A = true ->
    np_linalg_inv K (asarray_float64 A) = inl (LinAlgError m) ->
    inverse K A false w =
      (Raised (Anvaya (SingularMatrixError m None)),
       logged w [call_inv (asarray_float64 A)])
    /\ (forall c, np_linalg_cond K (asarray_float64 A) = inr c ->
                  gtb c hard_threshold = false ->
                  fst (inverse K A true w) = Raised (Anvaya (SingularMatrixError m None))).
Proof.
  intros K A m w Hsq Hinv. split.
  - rewrite (inverse_square_run K A false w Hsq). cbv zeta. rewrite Hinv. reflexivity.
  - intros c Hc Hg. rewrite (inverse_square_run K A true w Hsq). cbv zeta.
    rewrite Hc, Hg, Hinv. reflexivity.
Qed.

Lemma inverse_translates_LinAlgError_witness :
  inverse Ref.numpy Examples.singular2 false fresh =
    (Raised (Anvaya (SingularMatrixError "Singular matrix" None)),
     logged fresh [call_inv Examples.singular2]).
Proof.
  apply (inverse_translates_LinAlgError Ref.numpy Examples.singular2
           "Singular matrix" fresh).
  - reflexivity.
  - vm_compute. reflexivity.
Defined.



(** ** [transpose] on matrices *)

Lemma map_nth_seq (l : list scalar) (d : scalar) :
  map (fun j => nth j l d) (seq 0 (List.length l)) = l.
Proof.
  induction l as [|x l IH]; [reflexivity|].
  simpl. f_equal. rewrite <- seq_shift, map_map. exact IH.
Qed.

Lemma nth_map_seq (f : nat -> scalar) (n k : nat) (d : scalar) :
  (k < n)%nat -> nth k (map f (seq 0 n)) d = f k.
Proof.
  intros Hk.
  rewrite (nth_indep _ d (f 0%nat)) by (rewrite length_map, length_seq; exact Hk).
  rewrite (map_nth f (seq 0 n) 0%nat k), seq_nth by exact Hk. reflexivity.
Qed.

(** Element [j] of the transposed data is element [(j mod r) * c + j / r]
    of the original. *)
Lemma transpose_data_2d (A : ndarray) (r c : nat) :
  shape A = [r; c] ->
  data (transpose A)
  = map (fun j => nth ((j mod r) * c + j / r) (data A) (F zero))
        (seq 0 (List.length (data A))).
Proof.
  intros Hs. unfold transpose. rewrite Hs.
  cbn [dtype_of shape data rev app unravel ravel fold_right].
  apply map_ext. intros j.
  rewrite !Nat.mul_1_r, Nat.div_1_r, Nat.add_0_r. reflexivity.
Qed.

Lemma transposed_index (r c j : nat) :
  (j < r * c)%nat ->
  ((j mod c) * r + j / c < r * c)%nat
  /\ (((j mod c) * r + j / c) mod r = j / c)%nat
  /\ (((j mod c) * r + j / c) / r = j mod c)%nat.
Proof.
  intros Hj.
  assert (Hc : c <> 0%nat) by (intros ->; lia).
  assert (Hr : r <> 0%nat) by (intros ->; lia).
  assert (Hmod : (j mod c < c)%nat) by (apply Nat.mod_upper_bound; exact Hc).
  assert (Hdiv : (j / c < r)%nat)
    by (apply Nat.Div0.div_lt_upper_bound; lia).
  split; [nia|]. split.
  - rewrite Nat.add_comm, Nat.Div0.mod_add. apply Nat.mod_small. exact Hdiv.
  - rewrite Nat.div_add_l by exact Hr. rewrite (Nat.div_small (j / c) r) by exact Hdiv.
    lia.
Qed.

Lemma ndarray_eq (a b : ndarray) :
  dtype_of a = dtype_of b -> shape a = shape b -> data a = data b -> a = b.
Proof.
  destruct a, b. simpl. intros -> -> ->. reflexivity.
Qed.

(** ** [determinant] and [transpose] *)







(** X5.  On a well-formed matrix, transposing twice gives the matrix
    back: shape, element type and every element. *)
Theorem transpose_involutive :
  forall (A : ndarray) (r c : nat),
    shape A = [r; c] ->
    well_formed A ->
    transpose (transpose A) = A.
Proof.
  intros A r c Hs Hwf.
  assert (Hlen : List.length (data A) = (r * c)%nat).
  { unfold well_formed in Hwf. rewrite Hs in Hwf. simpl in Hwf. lia. }
  assert (Hs' : shape (transpose A) = [c; r]).
  { unfold transpose. rewrite Hs. reflexivity. }
  assert (Hlen' : List.length (data (transpose A)) = (r * c)%nat).
  { rewrite (transpose_data_2d A r c Hs), length_map, length_seq. exact Hlen. }
  apply ndarray_eq.
  - reflexivity.
  - change (shape (transpose (transpose A))) with (rev (shape (transpose A))).
    rewrite Hs', Hs. reflexivity.
  - rewrite (transpose_data_2d _ c r Hs'), Hlen'.
    rewrite <- (map_nth_seq (data A) (F zero)) at 1. rewrite Hlen.
    apply map_ext_in. intros j Hj. apply in_seq in Hj.
    destruct (transposed_index r c j) as [Hlt [Hmod Hdiv]]; [lia|].
    rewrite (transpose_data_2d A r c Hs), Hlen.
    rewrite nth_map_seq by exact Hlt.
    rewrite Hmod, Hdiv. f_equal.
    rewrite (Nat.div_mod_eq j c) at 3. lia.
Qed.

Lemma transpose_involutive_witness :
  transpose (transpose Examples.wide23) = Examples.wide23.
Proof.
  apply (transpose_involutive Examples.wide23 2 3).
  - reflexivity.
  - reflexivity.
Defined.

(** X6.  On a well-formed [r] by [c] matrix, [transpose] yields the [c]
    by [r] matrix whose entry [(j, i)] is the entry [(i, j)] of the
    original, for every pair of indices (out-of-range pairs have no entry
    on either side). *)
Theorem transpose_swaps_entries :
  forall (A : ndarray) (r c : nat),
    shape A = [r; c] ->
    well_formed A ->
    shape (transpose A) = [c; r]
    /\ well_formed (transpose A)
    /\ forall i j, entry (transpose A) j i = entry A i j.
Proof.
  intros A r c Hs Hwf.
  assert (Hlen : List.length (data A) = (r * c)%nat).
  { unfold well_formed in Hwf. rewrite Hs in Hwf. simpl in Hwf. lia. }
  assert (Hs' : shape (transpose A) = [c; r]).
  { unfold transpose. rewrite Hs. reflexivity. }
  assert (Hlen' : List.length (data (transpose A)) = (r * c)%nat).
  { rewrite (transpose_data_2d A r c Hs), length_map, length_seq. exact Hlen. }
  split; [exact Hs'|]. split.
  - unfold well_formed. rewrite Hs', Hlen'. simpl. lia.
  - intros i j. unfold entry. rewrite Hs', Hs.
    rewrite (andb_comm (j <? c)%nat (i <? r)%nat).
    destruct (i <? r)%nat eqn:Hi; [|reflexivity].
    destruct (j <? c)%nat eqn:Hj; [|reflexivity].
    apply Nat.ltb_lt in Hi. apply Nat.ltb_lt in Hj. cbn [andb].
    assert (Hr : r <> 0%nat) by lia.
    rewrite (nth_error_nth' _ (F zero)) by (rewrite Hlen'; nia).
    rewrite (nth_error_nth' (data A) (F zero)) by (rewrite Hlen; nia).
    f_equal.
    rewrite (transpose_data_2d A r c Hs), Hlen.
    rewrite nth_map_seq by nia.
    f_equal.
    rewrite (Nat.add_comm (j * r) i), Nat.Div0.mod_add, (Nat.mod_small i r) by exact Hi.
    rewrite (Nat.add_comm i (j * r)), Nat.div_add_l by exact Hr.
    rewrite (Nat.div_small i r) by exact Hi. lia.
Qed.

Lemma transpose_swaps_entries_witness :
  entry (transpose Examples.wide23) 2 1 = Some (F (of_Z 6))
  /\ entry Examples.wide23 1 2 = Some (F (of_Z 6)).
Proof.
  destruct (transpose_swaps_entries Examples.wide23 2 3) as [_ [_ Hswap]];
    try reflexivity.
  split; [rewrite Hswap|]; vm_compute; reflexivity.
Defined.

(** ** [cross_product]: the shape gate *)

Lemma is_3d_vector_shape (v : ndarray) :
  is_3d_vector v = true <-> shape v = [3%nat].
Proof.
  unfold is_3d_vector. destruct (shape v) as [|d [|d' s]]; split;
    try discriminate.
  - intros H. apply Nat.eqb_eq in H. subst. reflexivity.
  - intros H. injection H as ->. reflexivity.
Qed.

(** X7.  [cross_product] raises [DimensionMismatchError] exactly when one
    of its arguments does not have shape [(3,)] (a 1 by 3 matrix is
    rejected like any other shape); the exception names both shapes in
    its message, leaves [expected] and [got] unset, and does not depend
    on the backend.  When both shapes are [(3,)] the outcome is that of
    [np.cross]. *)
Theorem cross_product_guard :
  forall (T : Routines) (v1 v2 : ndarray),
    (raises "DimensionMismatchError" (cross_product T v1 v2) = true <->
     ~ (shape v1 = [3%nat] /\ shape v2 = [3%nat]))
    /\ (~ (shape v1 = [3%nat] /\ shape v2 = [3%nat]) ->
        cross_product T v1 v2 =
          Raised (Anvaya (DimensionMismatchError
                            ("Cross product requires 3D vectors, got shapes "
                               ++ repr_shape (shape v1) ++ " and "
                               ++ repr_shape (shape v2))
                            None None)))
    /\ (shape v1 = [3%nat] -> shape v2 = [3%nat] ->
        cross_product T v1 v2 = of_np (np_cross T v1 v2)).
Proof.
  intros T v1 v2. unfold cross_product.
  destruct (is_3d_vector v1) eqn:H1; destruct (is_3d_vector v2) eqn:H2; simpl.
  - apply is_3d_vector_shape in H1. apply is_3d_vector_shape in H2.
    split; [split|split].
    + destruct (np_cross T v1 v2) as [e|r]; [destruct e|]; discriminate.
    + intros H. exfalso. apply H. split; assumption.
    + intros H. exfalso. apply H. split; assumption.
    + intros _ _. destruct (np_cross T v1 v2); reflexivity.
  - assert (Hn : ~ (shape v1 = [3%nat] /\ shape v2 = [3%nat])).
    { intros [_ H]. apply is_3d_vector_shape in H. congruence. }
    split; [split; [intros _; exact Hn|reflexivity]|].
    split; [reflexivity|]. intros Ha Hb. exfalso. apply Hn. split; assumption.
  - assert (Hn : ~ (shape v1 = [3%nat] /\ shape v2 = [3%nat])).
    { intros [H _]. apply is_3d_vector_shape in H. congruence. }
    split; [split; [intros _; exact Hn|reflexivity]|].
    split; [reflexivity|]. intros Ha Hb. exfalso. apply Hn. split; assumption.
  - assert (Hn : ~ (shape v1 = [3%nat] /\ shape v2 = [3%nat])).
    { intros [H _]. apply is_3d_vector_shape in H. congruence. }
    split; [split; [intros _; exact Hn|reflexivity]|].
    split; [reflexivity|]. intros Ha Hb. exfalso. apply Hn. split; assumption.
Qed.

(** ** The exception constructors *)

Lemma prefix_append (s t : string) : prefix s (s ++ t) = true.
Proof.
  induction s as [|a s IH]; simpl; [destruct t; reflexivity|].
  destruct (ascii_dec a a) as [_|Hne]; [exact IH|contradiction].
Qed.

Lemma append_empty_r (s : string) : (s ++ "")%string = s.
Proof.
  induction s as [|a s IH]; simpl; [reflexivity|]. rewrite IH. reflexivity.
Qed.

Lemma prefix_refl (s : string) : prefix s s = true.
Proof.
  induction s as [|a s IH]; simpl; [reflexivity|].
  destruct (ascii_dec a a) as [_|Hne]; [exact IH|contradiction].
Qed.

(** X10.  Every constructor of [exceptions.py] stores its diagnostic
    arguments unchanged.  [SingularMatrixError], [ConvergenceError] and
    [DimensionMismatchError] only ever append to the caller's message
    ([DimensionMismatchError] appends nothing unless both [expected] and
    [got] are given).  [InvalidInputError] keeps the caller's message only
    when [parameter] or [value] is missing: given both, the text is
    rebuilt as "Invalid <parameter>=<value>", followed by ": <constraint>"
    when there is one, and the caller's message is not used. *)
Theorem constructors_store_and_show :
  forall (fmt : float64 -> string) (m : string)
         (c lv : option float64) (it : option Z) (e g : option shape_t)
         (p v k : option string),
    (new_SingularMatrixError fmt m c
       = SingularMatrixError (message_of (new_SingularMatrixError fmt m c)) c
     /\ prefix m (message_of (new_SingularMatrixError fmt m c)) = true)
    /\ (new_ConvergenceError m it lv
          = ConvergenceError (message_of (new_ConvergenceError m it lv)) it lv
        /\ prefix m (message_of (new_ConvergenceError m it lv)) = true)
    /\ (new_DimensionMismatchError m e g
          = DimensionMismatchError (message_of (new_DimensionMismatchError m e g)) e g
        /\ prefix m (message_of (new_DimensionMismatchError m e g)) = true
        /\ (e = None \/ g = None -> message_of (new_DimensionMismatchError m e g) = m))
    /\ (new_InvalidInputError m p v k
          = InvalidInputError (message_of (new_InvalidInputError m p v k)) p v k
        /\ (p = None \/ v = None -> message_of (new_InvalidInputError m p v k) = m)
        /\ (forall p' v', p = Some p' -> v = Some v' ->
              message_of (new_InvalidInputError m p v k)
              = ("Invalid " ++ p' ++ "=" ++ v'
                   ++ match k with Some c' => ": " ++ c' | None => "" end)%string)).
Proof.
  intros fmt m c lv it e g p v k.
  split; [|split; [|split]].
  - destruct c; simpl; split; try reflexivity;
      [apply prefix_append|apply prefix_refl].
  - destruct it; simpl; split; try reflexivity;
      [apply prefix_append|apply prefix_refl].
  - destruct e, g; simpl; repeat split;
      try apply prefix_append; try apply prefix_refl;
      intros [H|H]; try discriminate; reflexivity.
  - destruct p as [p0|], v as [v0|], k as [k0|]; simpl; repeat split;
      try (intros [H|H]; try discriminate; reflexivity);
      try (intros p' v' Hp Hv; try discriminate;
           injection Hp as <-; injection Hv as <-);
      try reflexivity.
    rewrite append_empty_r. reflexivity.
Qed.

(** ** [probability.py]: guards *)

(** X11.  [_validate_probability] accepts a float exactly when
    [0 <= value <= 1] holds for it in float arithmetic: NaN is rejected,
    negative zero and one are accepted.  A rejected value raises
    [InvalidInputError] carrying the parameter name, the value and the
    constraint, with the text "Invalid <name>=<value>: must be between 0
    and 1".  [Normal.ppf] applies this check to its argument and only
    then consults SciPy. *)
Theorem probability_validation :
  forall (str : float64 -> string)
         (ppf : float64 -> float64 -> float64 -> float64)
         (value : float64) (name : string) (d : Normal),
    (_validate_probability str value name = Ok tt <->
     leb zero value = true /\ leb value one = true)
    /\ (in_unit_interval value = false ->
        _validate_probability str value name = Fail (rejected str value name)
        /\ message_of (new_InvalidInputError
                         (name ++ " must be in [0, 1], got " ++ str value)
                         (Some name) (Some (str value))
                         (Some "must be between 0 and 1"))
           = ("Invalid " ++ name ++ "=" ++ str value
                ++ ": must be between 0 and 1")%string)
    /\ (in_unit_interval nan = false
        /\ in_unit_interval (opp zero) = true
        /\ in_unit_interval one = true)
    /\ (forall r, Normal_ppf str ppf d value = Ok r <->
                  in_unit_interval value = true
                  /\ r = ppf value (mean d) (std d)).
Proof.
  intros str ppf value name d.
  split; [|split; [|split]].
  - case_unit value.
    + split; [intros _|reflexivity].
      unfold in_unit_interval in *. apply andb_true_iff. assumption.
    + split; [discriminate|]. intros [H1 H2].
      unfold in_unit_interval in *. rewrite H1, H2 in *. discriminate.
  - intros H. unfold _validate_probability. rewrite H. split; reflexivity.
  - repeat split; reflexivity.
  - intros r. unfold Normal_ppf. case_unit value.
    + split.
      * intros H. injection H as <-. split; reflexivity.
      * intros [_ ->]. reflexivity.
    + split; [discriminate|]. intros [H _]. discriminate.
Qed.

(** X12.  The distribution constructors.  [Normal(mean, std)] is built
    exactly when [std <= 0] is false, so a NaN standard deviation is
    accepted; [Binomial(n, p)] exactly when [n >= 0] and [0 <= p <= 1],
    with [n] checked first; [Poisson(mu)] exactly when [mu < 0] is false,
    so NaN is accepted there too.  The exception raised for a bad [std],
    [n] or [mu] reads "Invalid <parameter>=<value>". *)
Theorem distribution_parameters_checked :
  forall (str : float64 -> string) (m s pr mu0 : float64) (k : Z),
    (Normal_init str m s = Ok (mk_Normal m s) <-> leb s zero = false)
    /\ (Binomial_init str k pr = Ok (mk_Binomial k pr) <->
        (0 <= k)%Z /\ in_unit_interval pr = true)
    /\ (Poisson_init str mu0 = Ok (mk_Poisson mu0) <-> ltb mu0 zero = false)
    /\ (Normal_init str m nan = Ok (mk_Normal m nan)
        /\ Poisson_init str nan = Ok (mk_Poisson nan))
    /\ (leb s zero = true ->
        Normal_init str m s =
          Fail (Library (InvalidInputError (("Invalid std=" ++ str s)%string)
                           (Some "std") (Some (str s)) None)))
    /\ ((k < 0)%Z ->
        Binomial_init str k pr =
          Fail (Library (InvalidInputError (("Invalid n=" ++ str_Z k)%string)
                           (Some "n") (Some (str_Z k)) None)))
    /\ (ltb mu0 zero = true ->
        Poisson_init str mu0 =
          Fail (Library (InvalidInputError (("Invalid mu=" ++ str mu0)%string)
                           (Some "mu") (Some (str mu0)) None))).
Proof.
  intros str m s pr mu0 k.
  split; [|split; [|split; [|split; [|split; [|split]]]]].
  - unfold Normal_init. destruct (leb s zero); split; try discriminate; reflexivity.
  - unfold Binomial_init. destruct (k <? 0)%Z eqn:Hk.
    + apply Z.ltb_lt in Hk. split; [discriminate|]. intros [H _]. lia.
    + apply Z.ltb_ge in Hk. case_unit pr.
      * split; [intros _; split; [exact Hk|reflexivity]|reflexivity].
      * split; [discriminate|]. intros [_ H]. discriminate.
  - unfold Poisson_init. destruct (ltb mu0 zero); split; try discriminate; reflexivity.
  - split; reflexivity.
  - intros H. unfold Normal_init. rewrite H. reflexivity.
  - intros H. unfold Binomial_init. apply Z.ltb_lt in H. rewrite H. reflexivity.
  - intros H. unfold Poisson_init. rewrite H. reflexivity.
Qed.

Lemma distribution_parameters_checked_witness :
  Normal_init Runtime.str_float zero (opp one)
    = Fail (Library (InvalidInputError "Invalid std=-1.0"
                       (Some "std") (Some "-1.0") None))
  /\ Binomial_init Runtime.str_float (-3) one
     = Fail (Library (InvalidInputError "Invalid n=-3" (Some "n") (Some "-3") None)).
Proof.
  destruct (distribution_parameters_checked Runtime.str_float zero (opp one)
              one zero (-3)) as [_ [_ [_ [_ [Hstd [Hn _]]]]]].
  split.
  - rewrite Hstd by reflexivity. vm_compute. reflexivity.
  - rewrite Hn by lia. vm_compute. reflexivity.
Defined.

(** ** [bayes_theorem] *)

Lemma bayes_validated_returns (str : float64 -> string) (a b c r : float64) :
  bayes_theorem str a b c true = Ok r <->
  in_unit_interval a = true /\ in_unit_interval b = true
  /\ in_unit_interval c = true /\ eqb c zero = false
  /\ r = div (mul a b) c.
Proof.
  bayes_cases a b c; split;
    try discriminate;
    try (intros [H1 [H2 [H3 [H4 H5]]]]; try discriminate; subst; reflexivity).
  intros H. injection H as <-. repeat split; reflexivity.
Qed.

(** X13.  With validation on, [bayes_theorem] returns exactly when its
    three arguments pass [0 <= x <= 1] and [p_b] is not zero, and then
    returns [(p_b_given_a * p_a) / p_b]; it raises [ZeroDivisionError]
    exactly when the three pass and [p_b] is zero (of either sign); and
    otherwise it raises [InvalidInputError] for the first argument, in
    the order [p_b_given_a], [p_a], [p_b], that fails the check. *)
Theorem bayes_theorem_validated :
  forall (str : float64 -> string) (a b c : float64),
    (forall r, bayes_theorem str a b c true = Ok r <->
               in_unit_interval a = true /\ in_unit_interval b = true
               /\ in_unit_interval c = true /\ eqb c zero = false
               /\ r = div (mul a b) c)
    /\ (bayes_theorem str a b c true = Fail p_b_is_zero <->
        in_unit_interval a = true /\ in_unit_interval b = true
        /\ in_unit_interval c = true /\ eqb c zero = true)
    /\ (in_unit_interval a = false ->
        bayes_theorem str a b c true = Fail (rejected str a "p_b_given_a"))
    /\ (in_unit_interval a = true -> in_unit_interval b = false ->
        bayes_theorem str a b c true = Fail (rejected str b "p_a"))
    /\ (in_unit_interval a = true -> in_unit_interval b = true ->
        in_unit_interval c = false ->
        bayes_theorem str a b c true = Fail (rejected str c "p_b")).
Proof.
  intros str a b c.
  split; [|split; [|split; [|split]]].
  - intros r. apply bayes_validated_returns.
  - unfold p_b_is_zero. bayes_cases a b c; split;
      try discriminate;
      try (intros [H1 [H2 [H3 H4]]]; try discriminate; reflexivity).
    intros _. repeat split; reflexivity.
  - intros Ha. unfold bayes_theorem, _validate_probability, and_then.
    rewrite Ha. reflexivity.
  - intros Ha Hb. unfold bayes_theorem, _validate_probability, and_then.
    rewrite Ha, Hb. reflexivity.
  - intros Ha Hb Hc. unfold bayes_theorem, _validate_probability, and_then.
    rewrite Ha, Hb, Hc. reflexivity.
Qed.

(** X14.  With validation off, [bayes_theorem] never raises
    [InvalidInputError]: it returns [(p_b_given_a * p_a) / p_b] for any
    floats with [p_b] not zero, NaN and out-of-range values included, and
    raises Python's own [ZeroDivisionError] when [p_b] is zero.  Whenever
    the validated call returns, the unvalidated call returns the same
    float. *)
Theorem bayes_theorem_unvalidated :
  forall (str : float64 -> string) (a b c : float64),
    (forall r, bayes_theorem str a b c false = Ok r <->
               eqb c zero = false /\ r = div (mul a b) c)
    /\ (bayes_theorem str a b c false = Fail (ZeroDivisionError "float division by zero")
        <-> eqb c zero = true)
    /\ (forall e, bayes_theorem str a b c false = Fail e ->
                  e = ZeroDivisionError "float division by zero")
    /\ (forall r, bayes_theorem str a b c true = Ok r ->
                  bayes_theorem str a b c false = Ok r).
Proof.
  intros str a b c.
  split; [|split; [|split]].
  - intros r. unfold bayes_theorem, truediv, and_then.
    destruct (eqb c zero); split; try discriminate.
    + intros [H _]. discriminate.
    + intros H. injection H as <-. split; reflexivity.
    + intros [_ ->]. reflexivity.
  - unfold bayes_theorem, truediv, and_then.
    destruct (eqb c zero); split; try discriminate; reflexivity.
  - intros e. unfold bayes_theorem, truediv, and_then.
    destruct (eqb c zero); [|discriminate]. intros H. injection H as <-. reflexivity.
  - intros r. bayes_cases a b c; try discriminate. auto.
Qed.

(** ** The sign of a validated posterior *)

Lemma shr_1_nonneg (mrs : shr_record) :
  (0 <= shr_m mrs)%Z -> (0 <= shr_m (shr_1 mrs))%Z.
Proof.
  destruct mrs as [m r s]. destruct m as [|[q|q|]|q]; simpl; lia.
Qed.

Lemma iter_pos_nonneg (k : positive) :
  forall mrs, (0 <= shr_m mrs)%Z -> (0 <= shr_m (iter_pos shr_1 k mrs))%Z.
Proof.
  induction k as [k IH|k IH|]; intros mrs H; simpl.
  - apply IH, IH, shr_1_nonneg, H.
  - apply IH, IH, H.
  - apply shr_1_nonneg, H.
Qed.

Lemma shr_fexp_nonneg (m e : Z) (l : location) :
  (0 <= m)%Z -> (0 <= shr_m (fst (shr_fexp prec emax m e l)))%Z.
Proof.
  intros Hm. unfold shr_fexp, shr.
  assert (H0 : (0 <= shr_m (shr_record_of_loc m l))%Z)
    by (destruct l as [|[]]; exact Hm).
  destruct (fexp prec emax (Zdigits2 m + e) - e)%Z as [|k|k]; simpl;
    try exact H0.
  apply iter_pos_nonneg, H0.
Qed.

Lemma round_nearest_even_nonneg (m : Z) (l : location) :
  (0 <= m)%Z -> (0 <= round_nearest_even m l)%Z.
Proof.
  intros Hm. destruct l as [|[]]; simpl; try lia.
  destruct (Z.even m); lia.
Qed.

(** Rounding a non-negative significand under the sign [false] yields a
    zero, a positive finite float or plus infinity, never a NaN. *)
Lemma binary_round_aux_nonnegative (m e : Z) (l : location) :
  (0 <= m)%Z -> nonnegative (binary_round_aux prec emax false m e l).
Proof.
  intros Hm. unfold binary_round_aux.
  pose proof (shr_fexp_nonneg m e l Hm) as H1.
  destruct (shr_fexp prec emax m e l) as [mrs1 e1]. simpl in H1.
  pose proof (shr_fexp_nonneg _ e1 loc_Exact
                (round_nearest_even_nonneg _ (loc_of_shr_record mrs1) H1)) as H2.
  destruct (shr_fexp prec emax
              (round_nearest_even (shr_m mrs1) (loc_of_shr_record mrs1)) e1 loc_Exact)
    as [mrs2 e2].
  simpl in H2. destruct (shr_m mrs2) as [|q|q]; simpl.
  - exact Logic.I.
  - destruct (e2 <=? _)%Z; exact Logic.I.
  - lia.
Qed.

Lemma in_unit_interval_cases (x : float64) :
  in_unit_interval x = true ->
  (exists s, x = S754_zero s) \/ (exists m e, x = S754_finite false m e).
Proof.
  unfold in_unit_interval. destruct x as [s|s| |s m e].
  - intros _. left. exists s. reflexivity.
  - destruct s; intros H; vm_compute in H; discriminate.
  - intros H; vm_compute in H; discriminate.
  - destruct s.
    + intros H. apply andb_true_iff in H. destruct H as [H _].
      unfold leb, SFleb, zero in H. simpl in H. discriminate.
    + intros _. right. exists m, e. reflexivity.
Qed.

Lemma mul_nonnegative (a b : float64) :
  in_unit_interval a = true -> in_unit_interval b = true ->
  nonnegative (mul a b).
Proof.
  intros Ha Hb.
  destruct (in_unit_interval_cases a Ha) as [[sa ->]|[ma [ea ->]]];
    destruct (in_unit_interval_cases b Hb) as [[sb ->]|[mb [eb ->]]];
    unfold mul; simpl; try exact Logic.I.
  apply binary_round_aux_nonnegative. lia.
Qed.

Lemma div_nonnegative (x c : float64) :
  nonnegative x -> in_unit_interval c = true -> eqb c zero = false ->
  nonnegative (div x c).
Proof.
  intros Hx Hc Hz.
  destruct (in_unit_interval_cases c Hc) as [[sc ->]|[mc [ec ->]]].
  - destruct sc; vm_compute in Hz; discriminate.
  - destruct x as [s|s| |s m e]; try destruct s; simpl in Hx; try contradiction;
      unfold div; simpl; try exact Logic.I.
    unfold SFdiv_core_binary.
    set (m' := match (e - ec - _)%Z with
               | Z0 => Zpos m
               | Zpos _ => Z.shiftl (Zpos m) _
               | Zneg _ => 0%Z
               end).
    assert (Hm' : (0 <= m')%Z).
    { subst m'. destruct (e - ec - _)%Z; try lia.
      apply Z.shiftl_nonneg. lia. }
    pose proof (Z.div_pos m' (Zpos mc) Hm' ltac:(lia)) as Hq.
    unfold Z.div in Hq.
    destruct (Z.div_eucl m' (Zpos mc)) as [q r].
    apply binary_round_aux_nonnegative. exact Hq.
Qed.

Lemma nonnegative_leb (x : float64) : nonnegative x -> leb zero x = true.
Proof.
  destruct x as [s|s| |s m e]; try destruct s; simpl; intros H;
    try contradiction; reflexivity.
Qed.

(** X15.  A posterior that the validated [bayes_theorem] returns is
    never NaN and never negative: [0 <= result] holds.  (It is not
    bounded by one: nothing relates [p_b] to the other two arguments.) *)
Theorem validated_posterior_is_nonnegative :
  forall (str : float64 -> string) (a b c r : float64),
    bayes_theorem str a b c true = Ok r ->
    leb zero r = true /\ is_nan r = false.
Proof.
  intros str a b c r H.
  apply bayes_validated_returns in H.
  destruct H as [Ha [Hb [Hc [Hz ->]]]].
  pose proof (div_nonnegative _ c (mul_nonnegative a b Ha Hb) Hc Hz) as Hn.
  split; [apply nonnegative_leb, Hn|].
  destruct (div (mul a b) c) as [s|s| |s m e]; try reflexivity.
  simpl in Hn. contradiction.
Qed.

Lemma validated_posterior_is_nonnegative_witness :
  bayes_theorem Runtime.str_float (of_scaled 1 (-1)) (of_scaled 1 (-1))
                (of_scaled 1 (-2)) true = Ok one
  /\ leb zero one = true /\ is_nan one = false.
Proof.
  assert (H : bayes_theorem Runtime.str_float (of_scaled 1 (-1)) (of_scaled 1 (-1))
                            (of_scaled 1 (-2)) true = Ok one)
    by (vm_compute; reflexivity).
  split; [exact H|].
  exact (validated_posterior_is_nonnegative Runtime.str_float _ _ _ one H).
Defined.

(** ** [gradient_descent] *)

Lemma descend_stops (K : Backend) (grad : list float64 -> list float64)
      (lr tol step : float64) (x : list float64) :
  np_linalg_norm K (Optimization.as_array (map (mul (opp lr)) (grad x))) OrdNone
    = inr step ->
  ltb step tol = true ->
  forall k, Optimization.descend K grad lr tol k x = Returned x.
Proof.
  intros Hn Hlt [|k]; simpl; [reflexivity|]. rewrite Hn, Hlt. reflexivity.
Qed.

Lemma descend_add (K : Backend) (grad : list float64 -> list float64)
      (lr tol : float64) (k m : nat) :
  forall x,
    Optimization.descend K grad lr tol (k + m) x
    = Optimization.and_then (Optimization.descend K grad lr tol k x)
                            (Optimization.descend K grad lr tol m).
Proof.
  induction k as [|k IH]; intros x; [reflexivity|].
  cbn [Nat.add Optimization.descend].
  destruct (np_linalg_norm K
              (Optimization.as_array (map (mul (opp lr)) (grad x))) OrdNone)
    as [e|step] eqn:Hn; [reflexivity|].
  destruct (ltb step tol) eqn:Hlt.
  - simpl. symmetry. apply (descend_stops K grad lr tol step x Hn Hlt).
  - destruct (Optimization.iadd x (map (mul (opp lr)) (grad x))) as [x'|e];
      [apply IH|reflexivity].
Qed.

(** X16.  Iterations of [gradient_descent] compose: a run of [k + m]
    iterations has the outcome of a run of [k] iterations followed by a
    run of [m] iterations started at its result, early stops and
    exceptions included.  In particular a result returned by an early
    stop is returned unchanged by any further run started from it. *)
Theorem gradient_descent_composes :
  forall (K : Backend) (Func : Type) (func : Func)
         (grad : list float64 -> list float64) (x0 : list float64)
         (lr tol : option float64) (k m : Z),
    (0 <= k)%Z -> (0 <= m)%Z ->
    Optimization.gradient_descent K Func func grad x0 lr (Some (k + m)%Z) tol
    = Optimization.and_then
        (Optimization.gradient_descent K Func func grad x0 lr (Some k) tol)
        (fun x => Optimization.gradient_descent K Func func grad x lr (Some m) tol).
Proof.
  intros K Func func grad x0 lr tol k m Hk Hm.
  unfold Optimization.gradient_descent.
  rewrite Z2Nat.inj_add by assumption. apply descend_add.
Qed.

Lemma gradient_descent_composes_witness :
  Optimization.gradient_descent Ref.numpy unit tt (map (mul (of_Z 2)))
    [one] (Some (of_scaled 1 (-2))) (Some 5%Z) None
  = Returned [of_scaled 1 (-5)]
  /\ Optimization.and_then
       (Optimization.gradient_descent Ref.numpy unit tt (map (mul (of_Z 2)))
          [one] (Some (of_scaled 1 (-2))) (Some 2%Z) None)
       (fun x => Optimization.gradient_descent Ref.numpy unit tt (map (mul (of_Z 2)))
                   x (Some (of_scaled 1 (-2))) (Some 3%Z) None)
     = Returned [of_scaled 1 (-5)].
Proof.
  pose proof (gradient_descent_composes Ref.numpy unit tt (map (mul (of_Z 2)))
                [one] (Some (of_scaled 1 (-2))) None 2 3) as H.
  assert (H5 : Optimization.gradient_descent Ref.numpy unit tt (map (mul (of_Z 2)))
                 [one] (Some (of_scaled 1 (-2))) (Some 5%Z) None
               = Returned [of_scaled 1 (-5)]) by (vm_compute; reflexivity).
  split; [exact H5|].
  rewrite <- H by lia. exact H5.
Defined.

Lemma zip_add_length (x d : list float64) :
  List.length d = List.length x -> List.length (Optimization.zip_add x d) = List.length x.
Proof.
  revert d. induction x as [|a x IH]; intros [|b d] H; simpl in *;
    try reflexivity; try discriminate.
  f_equal. apply IH. lia.
Qed.

Lemma iadd_length (x diff x' : list float64) :
  Optimization.iadd x diff = Returned x' -> List.length x' = List.length x.
Proof.
  unfold Optimization.iadd.
  destruct (Nat.eqb (List.length diff) (List.length x)) eqn:E.
  - apply Nat.eqb_eq in E. intros H. injection H as <-. apply zip_add_length, E.
  - destruct diff as [|d [|d' l]]; try discriminate.
    intros H. injection H as <-. apply length_map.
Qed.

Lemma iadd_raises_ValueError (x diff : list float64) (e : exn) :
  Optimization.iadd x diff = Raised e -> class_name e = "ValueError".
Proof.
  unfold Optimization.iadd.
  destruct (Nat.eqb (List.length diff) (List.length x)); [discriminate|].
  destruct diff as [|d [|d' l]]; try discriminate;
    intros H; injection H as <-; reflexivity.
Qed.

Lemma descend_invariants (K : Backend) (grad : list float64 -> list float64)
      (lr tol : float64) (k : nat) :
  forall x,
    match Optimization.descend K grad lr tol k x with
    | Returned r => List.length r = List.length x
    | Raised (Anvaya _) => False
    | Raised (Foreign _) => True
    end.
Proof.
  induction k as [|k IH]; intros x; simpl; [reflexivity|].
  destruct (np_linalg_norm K _ OrdNone) as [e|step]; [exact Logic.I|].
  destruct (ltb step tol); [reflexivity|].
  destruct (Optimization.iadd x (map (mul (opp lr)) (grad x))) as [x'|e] eqn:Hadd.
  - specialize (IH x'). apply iadd_length in Hadd.
    destruct (Optimization.descend K grad lr tol k x') as [r|[a|f]];
      try exact IH. congruence.
  - apply iadd_raises_ValueError in Hadd.
    destruct e as [a|f]; [destruct a; discriminate|exact Logic.I].
Qed.

(** X17.  [gradient_descent] returns a point with as many coordinates as
    the starting point, whatever the gradient callback returns; it never
    raises an exception of the library, so a run that uses up [max_iter]
    without meeting the tolerance returns its last iterate with no
    [ConvergenceError]; with [max_iter <= 0] it returns the starting point
    without calling the gradient; and the objective [func] plays no part
    in the outcome. *)
Theorem gradient_descent_edges :
  forall (K : Backend) (Func : Type) (func func' : Func)
         (grad : list float64 -> list float64) (x0 : list float64)
         (lr tol : option float64) (max_iter : option Z),
    (forall r, Optimization.gradient_descent K Func func grad x0 lr max_iter tol
               = Returned r -> List.length r = List.length x0)
    /\ raises "ConvergenceError"
         (Optimization.gradient_descent K Func func grad x0 lr max_iter tol) = false
    /\ (forall k grad', (k <= 0)%Z ->
          Optimization.gradient_descent K Func func grad' x0 lr (Some k) tol
          = Returned x0)
    /\ Optimization.gradient_descent K Func func grad x0 lr max_iter tol
       = Optimization.gradient_descent K Func func' grad x0 lr max_iter tol.
Proof.
  intros K Func func func' grad x0 lr tol max_iter.
  unfold Optimization.gradient_descent.
  set (r0 := match lr with Some r => r | None => _ end).
  set (t0 := match tol with Some t => t | None => _ end).
  set (n0 := Z.to_nat _).
  pose proof (descend_invariants K grad r0 t0 n0 x0) as Hinv.
  split; [|split; [|split]].
  - intros r Hr. rewrite Hr in Hinv. exact Hinv.
  - destruct (Optimization.descend K grad r0 t0 n0 x0) as [r|[a|f]];
      [reflexivity|contradiction|].
    apply foreign_is_not_anvaya. simpl. tauto.
  - intros k grad' Hk. destruct k; simpl; try reflexivity. lia.
  - reflexivity.
Qed.

(** ** [expected_value] and [variance_discrete] *)

(** The tolerance of the closeness test: [1e-8 + 1e-6 * 1.0] in float
    arithmetic, where [1e-6] and [1e-8] are the floats nearest to the
    decimal fractions. *)
Lemma isclose_tolerance :
  add Discrete.atol (mul Discrete.rtol (abs one)) = of_scaled 4769590147698341 (-72)
  /\ Discrete.rtol = of_scaled 4722366482869645 (-72)
  /\ Discrete.atol = of_scaled 6044629098073146 (-79)
  /\ (2 * Z.abs (4722366482869645 * 10 ^ 6 - 2 ^ 72) <= 10 ^ 6)%Z
  /\ (2 * Z.abs (6044629098073146 * 10 ^ 8 - 2 ^ 79) <= 10 ^ 8)%Z.
Proof. repeat split; vm_compute; congruence. Qed.

(** X18.  [expected_value] raises [InvalidInputError] exactly when the
    sum [s] of the probabilities fails [|s - 1| <= 1e-8 + 1e-6] in float
    arithmetic, which includes a NaN or infinite sum; the bound is the
    float [4769590147698341 * 2^-72], about 1.01e-6, so that of the
    floats next to 1 the sum [1 + 4548635623 * 2^-52] is the last one
    accepted above and [1 - 9097271247 * 2^-53] the last one below.  The
    check comes before the two lists are combined, the exception names
    the parameter "probabilities", carries no value, and keeps its
    message "Probabilities must sum to 1, got <s>".  [variance_discrete]
    raises the same exception in exactly the same cases. *)
Theorem expected_value_guard :
  forall (str : float64 -> string) (np_sum : list float64 -> float64)
         (values probabilities : list float64),
    (raises "InvalidInputError"
       (Discrete.expected_value str np_sum values probabilities) = true
     <-> leb (abs (sub (np_sum probabilities) one))
             (of_scaled 4769590147698341 (-72)) = false)
    /\ (raises "InvalidInputError"
          (Discrete.variance_discrete str np_sum values probabilities) = true
        <-> leb (abs (sub (np_sum probabilities) one))
                (of_scaled 4769590147698341 (-72)) = false)
    /\ (leb (abs (sub (np_sum probabilities) one))
            (of_scaled 4769590147698341 (-72)) = false ->
        Discrete.expected_value str np_sum values probabilities
        = Raised (Anvaya (InvalidInputError
                            (("Probabilities must sum to 1, got "
                                ++ str (np_sum probabilities))%string)
                            (Some "probabilities") None None))
        /\ Discrete.variance_discrete str np_sum values probabilities
           = Discrete.expected_value str np_sum values probabilities)
    /\ (Discrete.isclose_one (of_scaled (2 ^ 52 + 4548635623) (-52)) = true
        /\ Discrete.isclose_one (of_scaled (2 ^ 52 + 4548635624) (-52)) = false
        /\ Discrete.isclose_one (of_scaled (2 ^ 53 - 9097271247) (-53)) = true
        /\ Discrete.isclose_one (of_scaled (2 ^ 53 - 9097271248) (-53)) = false)
    /\ (Discrete.isclose_one nan = false
        /\ Discrete.isclose_one inf = false
        /\ Discrete.isclose_one zero = false).
Proof.
  intros str np_sum values probabilities.
  destruct isclose_tolerance as [Htol _]. rewrite <- Htol.
  change (leb (abs (sub (np_sum probabilities) one))
              (add Discrete.atol (mul Discrete.rtol (abs one))))
    with (Discrete.isclose_one (np_sum probabilities)).
  assert (Hmul : forall x y, raises "InvalidInputError"
                               (match Discrete.multiply x y with
                                | Returned products => Returned (np_sum products)
                                | Raised e => Raised e
                                end) = false).
  { intros x y. unfold Discrete.multiply.
    destruct (Nat.eqb (List.length x) (List.length y)); [reflexivity|].
    destruct x as [|a [|a' x]]; destruct y as [|b [|b' y]]; reflexivity. }
  unfold Discrete.variance_discrete, Discrete.expected_value.
  destruct (Discrete.isclose_one (np_sum probabilities)) eqn:Hc; simpl.
  - split; [|split; [|split; [|split]]].
    + rewrite Hmul. split; discriminate.
    + destruct (Discrete.multiply values probabilities) as [products|e] eqn:Hm.
      * rewrite Hmul. split; discriminate.
      * specialize (Hmul values probabilities). rewrite Hm in Hmul.
        rewrite Hmul. split; discriminate.
    + discriminate.
    + repeat split; vm_compute; reflexivity.
    + repeat split; vm_compute; reflexivity.
  - split; [|split; [|split; [|split]]].
    + split; reflexivity.
    + split; reflexivity.
    + intros _. split; reflexivity.
    + repeat split; vm_compute; reflexivity.
    + repeat split; vm_compute; reflexivity.
Qed.

(** ** Base conversion *)

Lemma digit_char_value (d : Z) :
  (0 <= d < 36)%Z ->
  NumberTheory.digit_value (NumberTheory.digit_char d) = Some d
  /\ Ascii.eqb (NumberTheory.digit_char d) "_" = false.
Proof.
  intros Hd.
  assert (Hk : exists k, (k < 36)%nat /\ d = Z.of_nat k)
    by (exists (Z.to_nat d); lia).
  destruct Hk as [k [Hk ->]].
  do 36 (destruct k as [|k]; [split; reflexivity|]). lia.
Qed.

Lemma scan_digits (base : Z) (ds : list Z) :
  (base <= 36)%Z ->
  Forall (fun d => (0 <= d < base)%Z) ds ->
  forall acc count,
    NumberTheory.scan base (map NumberTheory.digit_char ds) false acc count
    = Some (NumberTheory.value_of base ds acc, (count + List.length ds)%nat, []).
Proof.
  intros Hb Hds. induction Hds as [|d ds Hd _ IH]; intros acc count.
  - simpl. rewrite Nat.add_0_r. reflexivity.
  - destruct (digit_char_value d) as [Hv Hu]; [lia|].
    cbn [map NumberTheory.scan]. rewrite Hu, Hv.
    destruct (Z.ltb_spec d base) as [_|Hge]; [|lia].
    rewrite IH. cbn [List.length NumberTheory.value_of fold_left].
    rewrite Nat.add_succ_r. reflexivity.
Qed.

Lemma value_of_app (base : Z) (xs : list Z) (d acc : Z) :
  NumberTheory.value_of base (xs ++ [d]) acc
  = (NumberTheory.value_of base xs acc * base + d)%Z.
Proof.
  unfold NumberTheory.value_of. rewrite fold_left_app. reflexivity.
Qed.

Lemma digits_spec (base : Z) (fuel : nat) :
  (2 <= base)%Z ->
  forall n, (0 <= n < 2 ^ Z.of_nat fuel)%Z ->
    NumberTheory.value_of base (NumberTheory.digits base fuel n) 0 = n
    /\ Forall (fun d => (0 <= d < base)%Z) (NumberTheory.digits base fuel n).
Proof.
  intros Hb. induction fuel as [|fuel IH]; intros n Hn.
  - simpl in Hn. assert (n = 0%Z) by lia. subst. split; [reflexivity|constructor].
  - cbn [NumberTheory.digits].
    destruct (Z.eqb_spec n 0) as [->|Hne]; [split; [reflexivity|constructor]|].
    assert (Hq : (0 <= n / base < 2 ^ Z.of_nat fuel)%Z).
    { split; [apply Z.div_pos; lia|].
      apply Z.div_lt_upper_bound; [lia|].
      rewrite Nat2Z.inj_succ, Z.pow_succ_r in Hn by lia. nia. }
    destruct (IH _ Hq) as [Hval Hall]. split.
    + rewrite value_of_app, Hval.
      pose proof (Z.div_mod n base ltac:(lia)). lia.
    + apply Forall_app. split; [exact Hall|].
      constructor; [|constructor]. apply Z.mod_pos_bound. lia.
Qed.

(** The digits [hex], [bin] and [oct] print for a magnitude. *)
Lemma magnitude_digits (base n : Z) :
  (2 <= base)%Z -> (0 <= n)%Z ->
  exists d ds,
    NumberTheory.magnitude base n = map NumberTheory.digit_char (d :: ds)
    /\ NumberTheory.value_of base (d :: ds) 0 = n
    /\ Forall (fun x => (0 <= x < base)%Z) (d :: ds).
Proof.
  intros Hb Hn. unfold NumberTheory.magnitude.
  destruct (Z.eqb_spec n 0) as [->|Hne].
  - exists 0%Z, []. repeat split. constructor; [lia|constructor].
  - assert (Hpos : (0 < n)%Z) by lia.
    pose proof (Z.log2_spec n Hpos) as [_ Hlog].
    pose proof (Z.log2_nonneg n) as Hl0.
    destruct (digits_spec base (S (Z.to_nat (Z.log2 n))) Hb n) as [Hval Hall].
    { split; [lia|]. rewrite Nat2Z.inj_succ, Z2Nat.id by lia. exact Hlog. }
    destruct (NumberTheory.digits base (S (Z.to_nat (Z.log2 n))) n) as [|d ds] eqn:E.
    + simpl in Hval. lia.
    + exists d, ds. repeat split; assumption.
Qed.

Arguments NumberTheory.scan : simpl never.

(** [int] on a sign, a prefix and a run of digits of a base that is a
    power of two. *)
Lemma py_int_prefixed_text (limit : Z) (repr : string -> string)
      (negative : bool) (letter : ascii) (base b : Z) (c0 : ascii) (cs : NumberTheory.text)
      (v : Z) (k : nat) :
  (letter = "x"%char /\ base = 16%Z) \/ (letter = "b"%char /\ base = 2%Z)
  \/ (letter = "o"%char /\ base = 8%Z) ->
  b = base \/ b = 0%Z ->
  Ascii.eqb c0 "_" = false ->
  NumberTheory.scan base (c0 :: cs) false 0 0 = Some (v, S k, []) ->
  NumberTheory.py_int limit repr
    (string_of_list_ascii
       ((if negative then ["-"%char] else []) ++ ["0"%char; letter] ++ c0 :: cs)) b
  = Returned (if negative then (- v)%Z else v).
Proof.
  intros Hletter Hb Hu Hscan.
  unfold NumberTheory.py_int. rewrite list_ascii_of_string_of_list_ascii.
  destruct Hletter as [[-> ->]|[[-> ->]|[-> ->]]]; destruct Hb as [->| ->];
    destruct negative; simpl; rewrite ?Hu; simpl; rewrite Hscan; simpl;
    reflexivity.
Qed.

(** [int] reads back what [hex], [bin] and [oct] print, with the base
    given or left to the prefix. *)
Lemma py_int_prefixed (limit : Z) (repr : string -> string)
      (letter : ascii) (base b n : Z) :
  (letter = "x"%char /\ base = 16%Z) \/ (letter = "b"%char /\ base = 2%Z)
  \/ (letter = "o"%char /\ base = 8%Z) ->
  b = base \/ b = 0%Z ->
  NumberTheory.py_int limit repr (NumberTheory.prefixed letter base n) b = Returned n.
Proof.
  intros Hletter Hb. unfold NumberTheory.prefixed.
  destruct (magnitude_digits base (Z.abs n)) as (d & ds & Hm & Hv & Hall);
    [destruct Hletter as [[_ ->]|[[_ ->]|[_ ->]]]; lia|lia|].
  rewrite Hm. cbn [map].
  destruct (digit_char_value d) as [_ Hu].
  { inversion Hall; subst. destruct Hletter as [[_ ->]|[[_ ->]|[_ ->]]]; lia. }
  rewrite (py_int_prefixed_text limit repr (n <? 0)%Z letter base b
             (NumberTheory.digit_char d) (map NumberTheory.digit_char ds)
             (Z.abs n) (List.length ds) Hletter Hb Hu).
  - destruct (Z.ltb_spec n 0); f_equal; lia.
  - change (NumberTheory.digit_char d :: map NumberTheory.digit_char ds)
      with (map NumberTheory.digit_char (d :: ds)).
    rewrite scan_digits; [|destruct Hletter as [[_ ->]|[[_ ->]|[_ ->]]]; lia|exact Hall].
    rewrite Hv. reflexivity.
Qed.

(** X19.  Reading back what [to_hex], [to_bin] and [to_oct] print gives
    the integer again: [from_base (to_hex n) 16 = n], likewise base 2 and
    base 8, for every integer, negative ones and zero included, and also
    when the base is 0 and is read from the prefix.  The limit on the
    length of decimal conversions plays no part. *)
Theorem from_base_reads_back (limit : Z) (repr : string -> string) (n : Z) :
  NumberTheory.from_base limit repr (NumberTheory.to_hex n) 16 = Returned n
  /\ NumberTheory.from_base limit repr (NumberTheory.to_bin n) 2 = Returned n
  /\ NumberTheory.from_base limit repr (NumberTheory.to_oct n) 8 = Returned n
  /\ NumberTheory.from_base limit repr (NumberTheory.to_hex n) 0 = Returned n
  /\ NumberTheory.from_base limit repr (NumberTheory.to_bin n) 0 = Returned n
  /\ NumberTheory.from_base limit repr (NumberTheory.to_oct n) 0 = Returned n.
Proof.
  unfold NumberTheory.from_base, NumberTheory.to_hex, NumberTheory.to_bin,
    NumberTheory.to_oct.
  repeat split; apply py_int_prefixed; auto 6.
Qed.

(** X20.  [convert_base] between the prefixed notations: from what
    [to_hex], [to_bin] or [to_oct] prints, with its base or with base 0,
    to base 2, 8 or 16 gives what [to_bin], [to_oct] or [to_hex] prints
    for the same integer; to base 10 it gives [str] of the integer, and
    so fails exactly when [str] does. *)
Theorem convert_base_between_notations (limit : Z) (repr : string -> string) (n : Z) :
  let conv := NumberTheory.convert_base limit repr in
  let sources := [(NumberTheory.to_hex n, 16%Z); (NumberTheory.to_bin n, 2%Z);
                  (NumberTheory.to_oct n, 8%Z)] in
  Forall (fun source : string * Z =>
            let (s, base) := source in
            Forall (fun b =>
                      conv s b 2%Z = Returned (NumberTheory.to_bin n)
                      /\ conv s b 8%Z = Returned (NumberTheory.to_oct n)
                      /\ conv s b 16%Z = Returned (NumberTheory.to_hex n)
                      /\ conv s b 10%Z = NumberTheory.py_str limit n)
                   [base; 0%Z]) sources.
Proof.
  cbv zeta. unfold NumberTheory.convert_base.
  repeat constructor.
  all: first [ rewrite (py_int_prefixed limit repr "x" 16 _ n) by auto 6
             | rewrite (py_int_prefixed limit repr "b" 2 _ n) by auto 6
             | rewrite (py_int_prefixed limit repr "o" 8 _ n) by auto 6 ].
  all: reflexivity.
Qed.

(** Every way [int(s, base)] fails on a string is a [ValueError]. *)
Lemma py_int_raises_ValueError (limit : Z) (repr : string -> string)
      (s : string) (base : Z) (e : exn) :
  NumberTheory.py_int limit repr s base = Raised e -> class_name e = "ValueError"%string.
Proof.
  unfold NumberTheory.py_int. cbv zeta. intros H.
  repeat match type of H with
         | (if ?c then _ else _) = _ => destruct c
         | (match ?x with _ => _ end) = _ => destruct x
         end;
    first [discriminate H | injection H as <-; reflexivity].
Qed.

(** X21.  Conversions chain: when [convert_base val from_base m] returns
    the text [s] for [m] one of 2, 8 and 16, converting [s] from base [m]
    (or from base 0) to any target gives what converting [val] to that
    target gives, a failure included; in particular converting [s] to its
    own base gives [s] back. *)
Theorem convert_base_chains (limit : Z) (repr : string -> string)
        (val s : string) (from_base m to_base : Z) :
  In m [2; 8; 16]%Z ->
  NumberTheory.convert_base limit repr val from_base m = Returned s ->
  NumberTheory.convert_base limit repr s m to_base
  = NumberTheory.convert_base limit repr val from_base to_base
  /\ NumberTheory.convert_base limit repr s 0 to_base
     = NumberTheory.convert_base limit repr val from_base to_base
  /\ NumberTheory.convert_base limit repr s m m = Returned s.
Proof.
  intros Hm Hs. unfold NumberTheory.convert_base in *.
  destruct (NumberTheory.py_int limit repr val from_base) as [v|e]; [|discriminate Hs].
  destruct Hm as [<-|[<-|[<-|[]]]]; cbn in Hs; injection Hs as <-;
    unfold NumberTheory.to_hex, NumberTheory.to_bin, NumberTheory.to_oct;
    rewrite !py_int_prefixed by auto 6; repeat split; reflexivity.
Qed.

Lemma convert_base_chains_witness :
  NumberTheory.convert_base 4300 (fun s => s) "1010" 2 16 = Returned "0xa"%string
  /\ NumberTheory.convert_base 4300 (fun s => s) "0xa" 16 8 = Returned "0o12"%string
  /\ NumberTheory.convert_base 4300 (fun s => s) "1010" 2 8 = Returned "0o12"%string.
Proof.
  destruct (convert_base_chains 4300 (fun s => s) "1010" "0xa" 2 16 8) as [H _].
  - right; right; left; reflexivity.
  - reflexivity.
  - split; [reflexivity|]. split; [|reflexivity]. rewrite H. reflexivity.
Defined.

Lemma py_str_raises_ValueError (limit n : Z) (e : exn) :
  NumberTheory.py_str limit n = Raised e -> class_name e = "ValueError"%string.
Proof.
  unfold NumberTheory.py_str. destruct (NumberTheory.over_limit _ _); intros H;
    [injection H as <-; reflexivity|discriminate H].
Qed.

(** X22.  Every failure of [convert_base] is a [ValueError], and a target
    base other than 2, 8, 10 and 16 always fails.  The input is read
    first: when [val] cannot be read in [from_base] the error is that of
    [int]; otherwise the message is built, which converts the target
    base to text under the interpreter's limit on such conversions: the
    error is "Target base <t> not directly supported in this simple
    helper." when that conversion goes through, and the conversion's own
    error when the target base has more digits than the limit allows.
    The conversion fails exactly when the limit is switched on and the
    number of digits exceeds both 640 and the limit. *)
Theorem convert_base_failures (limit : Z) (repr : string -> string)
        (val : string) (from_base to_base : Z) :
  let r := NumberTheory.convert_base limit repr val from_base to_base in
  (forall e, r = Raised e -> class_name e = "ValueError"%string)
  /\ (~ In to_base [2; 8; 10; 16]%Z ->
      raises "ValueError" r = true
      /\ (forall e, NumberTheory.from_base limit repr val from_base = Raised e ->
                    r = Raised e)
      /\ (forall v shown,
            NumberTheory.from_base limit repr val from_base = Returned v ->
            NumberTheory.py_str limit to_base = Returned shown ->
            shown = str_Z to_base
            /\ r = Raised (Foreign (ValueError
                                      ("Target base " ++ shown
                                         ++ " not directly supported in this simple helper."))))
      /\ (forall v e,
            NumberTheory.from_base limit repr val from_base = Returned v ->
            NumberTheory.py_str limit to_base = Raised e ->
            r = Raised e))
  /\ (forall n,
        (exists e, NumberTheory.py_str limit n = Raised e)
        <-> (640 < Z.of_nat (String.length (str_Z (Z.abs n)))
             /\ 0 < limit < Z.of_nat (String.length (str_Z (Z.abs n))))%Z).
Proof.
  cbv zeta. unfold NumberTheory.convert_base, NumberTheory.from_base.
  split; [|split].
  - destruct (NumberTheory.py_int limit repr val from_base) as [v|e0] eqn:E.
    + intros e.
      destruct (to_base =? 10)%Z; [apply py_str_raises_ValueError|].
      destruct (to_base =? 2)%Z; [discriminate|].
      destruct (to_base =? 8)%Z; [discriminate|].
      destruct (to_base =? 16)%Z; [discriminate|].
      destruct (NumberTheory.py_str limit to_base) as [shown|e1] eqn:Es.
      * intros H; injection H as <-; reflexivity.
      * intros H; injection H as <-. exact (py_str_raises_ValueError _ _ _ Es).
    + intros e H; injection H as <-.
      exact (py_int_raises_ValueError _ _ _ _ _ E).
  - intros Hnot.
    destruct (Z.eqb_spec to_base 10) as [->|_]; [exfalso; apply Hnot; simpl; auto|].
    destruct (Z.eqb_spec to_base 2) as [->|_]; [exfalso; apply Hnot; simpl; auto|].
    destruct (Z.eqb_spec to_base 8) as [->|_]; [exfalso; apply Hnot; simpl; auto|].
    destruct (Z.eqb_spec to_base 16) as [->|_]; [exfalso; apply Hnot; simpl; auto|].
    destruct (NumberTheory.py_int limit repr val from_base) as [v|e0] eqn:E.
    + destruct (NumberTheory.py_str limit to_base) as [shown|e1] eqn:Es.
      * split; [reflexivity|]. split; [discriminate|]. split; [|discriminate].
        intros v0 shown0 _ H. injection H as <-. split; [|reflexivity].
        unfold NumberTheory.py_str in Es.
        destruct (NumberTheory.over_limit _ _); [discriminate|].
        injection Es as <-. reflexivity.
      * split.
        { unfold raises. rewrite (py_str_raises_ValueError _ _ _ Es). reflexivity. }
        split; [discriminate|]. split; [discriminate|].
        intros v0 e _ H. injection H as <-. reflexivity.
    + pose proof (py_int_raises_ValueError _ _ _ _ _ E) as Hc.
      split; [unfold raises; rewrite Hc; reflexivity|].
      split; [intros e H; injection H as <-; reflexivity|].
      split; discriminate.
  - intros n. unfold NumberTheory.py_str, NumberTheory.over_limit, NumberTheory.threshold.
    destruct (Z.ltb_spec 640 (Z.of_nat (String.length (str_Z (Z.abs n)))));
      destruct (Z.ltb_spec 0 limit);
      destruct (Z.ltb_spec limit (Z.of_nat (String.length (str_Z (Z.abs n)))));
      simpl; (split;
              [intros [e He]; first [discriminate He|lia]
              |intros Hc; first [lia|eexists; reflexivity]]).
Qed.
